(** * ThingSet CAN identifier layout (include/thingset/can.h)

    A shallow embedding of the bit-field macros of [can.h]: the 29-bit CAN
    identifier is a [Z], a [uint32_t] value is a [Z] in [0, 2^32) with the
    wrap-around of casts and left shifts written out, and every macro is a
    function on [Z] that keeps the macro's name.

    Macro arguments are taken to be values (the macros leave their
    arguments unparenthesised, so an argument that is itself an expression
    with a low-precedence operator would be parsed differently by C). *)

From Stdlib Require Import ZArith Lia Bool List.
Import ListNotations.

Local Open Scope Z_scope.

(** ** Machine integers *)

Module Uint32.

Definition width : Z := 32.
Definition modulus : Z := 2 ^ width.

(** The cast [(uint32_t)x]. *)
Definition cast (x : Z) : Z := x mod modulus.

(** [x << n] on [uint32_t]: bits shifted past bit 31 are lost. *)
Definition shl (x n : Z) : Z := (Z.shiftl x n) mod modulus.

(** [x >> n] on [uint32_t] (logical shift of a non-negative value). *)
Definition shr (x n : Z) : Z := Z.shiftr x n.

Definition in_range (x : Z) : Prop := 0 <= x < modulus.

End Uint32.

(** A 29-bit extended CAN identifier. *)
Definition is_can_id (id : Z) : Prop := 0 <= id < 2 ^ 29.

(** ** The macros of can.h *)

(** *** Source and target addresses *)

Definition THINGSET_CAN_SOURCE_POS : Z := 0.
Definition THINGSET_CAN_SOURCE_MASK : Z := Z.shiftl 0xFF THINGSET_CAN_SOURCE_POS.
Definition THINGSET_CAN_SOURCE_SET (addr : Z) : Z :=
  Z.land (Uint32.shl (Uint32.cast addr) THINGSET_CAN_SOURCE_POS) THINGSET_CAN_SOURCE_MASK.
Definition THINGSET_CAN_SOURCE_GET (id : Z) : Z :=
  Uint32.shr (Z.land (Uint32.cast id) THINGSET_CAN_SOURCE_MASK) THINGSET_CAN_SOURCE_POS.

Definition THINGSET_CAN_TARGET_POS : Z := 8.
Definition THINGSET_CAN_TARGET_MASK : Z := Z.shiftl 0xFF THINGSET_CAN_TARGET_POS.
Definition THINGSET_CAN_TARGET_SET (addr : Z) : Z :=
  Z.land (Uint32.shl (Uint32.cast addr) THINGSET_CAN_TARGET_POS) THINGSET_CAN_TARGET_MASK.
Definition THINGSET_CAN_TARGET_GET (id : Z) : Z :=
  Uint32.shr (Z.land (Uint32.cast id) THINGSET_CAN_TARGET_MASK) THINGSET_CAN_TARGET_POS.

Definition THINGSET_CAN_ADDR_MAX : Z := 0xFD.
Definition THINGSET_CAN_ADDR_ANONYMOUS : Z := 0xFE.
Definition THINGSET_CAN_ADDR_BROADCAST : Z := 0xFF.

(** *** Data IDs for publication messages *)

Definition THINGSET_CAN_DATA_ID_POS : Z := 8.
Definition THINGSET_CAN_DATA_ID_MASK : Z := Z.shiftl 0xFFFF THINGSET_CAN_DATA_ID_POS.
Definition THINGSET_CAN_DATA_ID_SET (id : Z) : Z :=
  Z.land (Uint32.shl (Uint32.cast id) THINGSET_CAN_DATA_ID_POS) THINGSET_CAN_DATA_ID_MASK.
Definition THINGSET_CAN_DATA_ID_GET (id : Z) : Z :=
  Uint32.shr (Z.land (Uint32.cast id) THINGSET_CAN_DATA_ID_MASK) THINGSET_CAN_DATA_ID_POS.

(** *** Bus ID for request/response messages *)

Definition THINGSET_CAN_BUS_ID_POS : Z := 16.
Definition THINGSET_CAN_BUS_ID_MASK : Z := Z.shiftl 0xFF THINGSET_CAN_BUS_ID_POS.
Definition THINGSET_CAN_BUS_ID_SET (id : Z) : Z :=
  Z.land (Uint32.shl (Uint32.cast id) THINGSET_CAN_BUS_ID_POS) THINGSET_CAN_BUS_ID_MASK.
Definition THINGSET_CAN_BUS_ID_GET (id : Z) : Z :=
  Uint32.shr (Z.land (Uint32.cast id) THINGSET_CAN_BUS_ID_MASK) THINGSET_CAN_BUS_ID_POS.
Definition THINGSET_CAN_BUS_ID_DEFAULT : Z := 0xDA.

(** *** Random number for address discovery messages *)

Definition THINGSET_CAN_RAND_SET : Z -> Z := THINGSET_CAN_BUS_ID_SET.
Definition THINGSET_CAN_RAND_GET : Z -> Z := THINGSET_CAN_BUS_ID_GET.

(** *** Message types *)

Definition THINGSET_CAN_TYPE_POS : Z := 24.
Definition THINGSET_CAN_TYPE_MASK : Z := Z.shiftl 0x3 THINGSET_CAN_TYPE_POS.

Definition THINGSET_CAN_TYPE_CHANNEL : Z := Z.shiftl 0x0 THINGSET_CAN_TYPE_POS.
Definition THINGSET_CAN_TYPE_REPORT : Z := Z.shiftl 0x2 THINGSET_CAN_TYPE_POS.
Definition THINGSET_CAN_TYPE_NETWORK : Z := Z.shiftl 0x3 THINGSET_CAN_TYPE_POS.

(** Modelled from the spec: [THINGSET_CAN_TYPE_CONTROL] is used by
    [THINGSET_CAN_CONTROL] but is defined nowhere in can.h.  The spec has
    control and report frames share one 2-bit type tag, told apart by the
    priority only; the header's layout comment draws the same tag 0x2 for
    "Control and report messages". *)
Definition THINGSET_CAN_TYPE_CONTROL : Z := THINGSET_CAN_TYPE_REPORT.

(** *** Message priorities *)

Definition THINGSET_CAN_PRIO_POS : Z := 26.
Definition THINGSET_CAN_PRIO_MASK : Z := Z.shiftl 0x7 THINGSET_CAN_PRIO_POS.
(** No mask here, unlike the other setters. *)
Definition THINGSET_CAN_PRIO_SET (prio : Z) : Z :=
  Uint32.shl (Uint32.cast prio) THINGSET_CAN_PRIO_POS.
Definition THINGSET_CAN_PRIO_GET (id : Z) : Z :=
  Uint32.shr (Z.land (Uint32.cast id) THINGSET_CAN_PRIO_MASK) THINGSET_CAN_PRIO_POS.

Definition THINGSET_CAN_PRIO_CONTROL_EMERGENCY : Z := Z.shiftl 0x0 THINGSET_CAN_PRIO_POS.
Definition THINGSET_CAN_PRIO_CONTROL_HIGH : Z := Z.shiftl 0x2 THINGSET_CAN_PRIO_POS.
Definition THINGSET_CAN_PRIO_CONTROL_LOW : Z := Z.shiftl 0x3 THINGSET_CAN_PRIO_POS.
Definition THINGSET_CAN_PRIO_NETWORK_MGMT : Z := Z.shiftl 0x4 THINGSET_CAN_PRIO_POS.
Definition THINGSET_CAN_PRIO_REPORT_HIGH : Z := Z.shiftl 0x5 THINGSET_CAN_PRIO_POS.
Definition THINGSET_CAN_PRIO_CHANNEL : Z := Z.shiftl 0x6 THINGSET_CAN_PRIO_POS.
Definition THINGSET_CAN_PRIO_REPORT_LOW : Z := Z.shiftl 0x7 THINGSET_CAN_PRIO_POS.

(** *** Message type predicates *)

Definition THINGSET_CAN_CONTROL (id : Z) : bool :=
  (Z.land id THINGSET_CAN_TYPE_MASK =? THINGSET_CAN_TYPE_CONTROL)
  && (THINGSET_CAN_PRIO_GET id <? 4).
Definition THINGSET_CAN_REPORT (id : Z) : bool :=
  (Z.land id THINGSET_CAN_TYPE_MASK =? THINGSET_CAN_TYPE_REPORT)
  && (THINGSET_CAN_PRIO_GET id >=? 4).
Definition THINGSET_CAN_CHANNEL (id : Z) : bool :=
  Z.land id THINGSET_CAN_TYPE_MASK =? THINGSET_CAN_TYPE_CHANNEL.

(** ** Identifier layouts

    The three frame layouts drawn in the header's comment.  The header has
    no function that builds an identifier: a caller ORs the setter macros
    and the type constant together, which is what these do. *)

(** Channel-based messages: priority | 0x0 | bus ID | target | source. *)
Definition channel_id (prio bus_id target source : Z) : Z :=
  Z.lor (Z.lor (Z.lor (Z.lor (THINGSET_CAN_PRIO_SET prio) THINGSET_CAN_TYPE_CHANNEL)
                      (THINGSET_CAN_BUS_ID_SET bus_id))
               (THINGSET_CAN_TARGET_SET target))
        (THINGSET_CAN_SOURCE_SET source).

(** Control and report messages: priority | 0x2 | data ID | source. *)
Definition report_id (prio data_id source : Z) : Z :=
  Z.lor (Z.lor (Z.lor (THINGSET_CAN_PRIO_SET prio) THINGSET_CAN_TYPE_REPORT)
               (THINGSET_CAN_DATA_ID_SET data_id))
        (THINGSET_CAN_SOURCE_SET source).

(** Network management: priority | 0x3 | variable byte | target | source. *)
Definition network_id (prio rand target source : Z) : Z :=
  Z.lor (Z.lor (Z.lor (Z.lor (THINGSET_CAN_PRIO_SET prio) THINGSET_CAN_TYPE_NETWORK)
                      (THINGSET_CAN_RAND_SET rand))
               (THINGSET_CAN_TARGET_SET target))
        (THINGSET_CAN_SOURCE_SET source).

(** What building an identifier can result in.  The macros are C
    expressions of type [uint32_t]: they always yield a value, so the
    embedding of the code only ever builds [Packed]. *)
Inductive encode_result : Type :=
| Packed (id : Z)
| InvalidField.

Definition encode_channel (prio bus_id target source : Z) : encode_result :=
  Packed (channel_id prio bus_id target source).

Definition encode_report (prio data_id source : Z) : encode_result :=
  Packed (report_id prio data_id source).

(** A field value that does not fit its declared width. *)
Definition exceeds_width (bits v : Z) : Prop := 2 ^ bits <= v.

(** ** Message classes *)

Inductive msg_class : Type := Channel | Report | NetworkMgmt | Unknown.

(** The type tag that no constant of the header names. *)
Definition type_tag_reserved : Z := Z.shiftl 0x1 THINGSET_CAN_TYPE_POS.

(** The header has no predicate macro for network management frames; the
    comparison has the shape of [THINGSET_CAN_CHANNEL]. *)
Definition type_is_network (id : Z) : bool :=
  Z.land id THINGSET_CAN_TYPE_MASK =? THINGSET_CAN_TYPE_NETWORK.

Definition type_is_reserved (id : Z) : bool :=
  Z.land id THINGSET_CAN_TYPE_MASK =? type_tag_reserved.

(** When an identifier belongs to a class; control frames count as
    [Report], whose type tag they carry. *)
Definition in_class (c : msg_class) (id : Z) : bool :=
  match c with
  | Channel => THINGSET_CAN_CHANNEL id
  | Report => THINGSET_CAN_REPORT id || THINGSET_CAN_CONTROL id
  | NetworkMgmt => type_is_network id
  | Unknown => type_is_reserved id
  end.

Definition all_classes : list msg_class := [Channel; Report; NetworkMgmt; Unknown].

(** How many classes an identifier belongs to. *)
Definition class_count (id : Z) : nat :=
  length (filter (fun c => in_class c id) all_classes).

(** ** The field masks *)

Definition field_masks : list Z :=
  [THINGSET_CAN_PRIO_MASK; THINGSET_CAN_TYPE_MASK; THINGSET_CAN_BUS_ID_MASK;
   THINGSET_CAN_TARGET_MASK; THINGSET_CAN_SOURCE_MASK].

(** Every two masks at different positions of the list have no common bit. *)
Fixpoint pairwise_disjoint (ms : list Z) : bool :=
  match ms with
  | [] => true
  | m :: rest => forallb (fun m' => Z.land m m' =? 0) rest && pairwise_disjoint rest
  end.

(** How many masks of the list have bit [i] set. *)
Definition masks_with_bit (ms : list Z) (i : Z) : nat :=
  length (filter (fun m => Z.testbit m i) ms).

(** The bit positions of a 29-bit identifier, 0 to 28. *)
Definition bit_positions : list Z := map Z.of_nat (seq 0 29).

(** ** Address state *)

(** The fields of [struct thingset_can] that hold plain data; the device,
    work item, ISO-TP contexts and event object are kernel handles. *)
Record thingset_can : Type := mk_thingset_can {
  next_pub_time : Z;
  node_addr : Z;
  pub_enable : bool
}.

(** Modelled from the spec: [commit], the operation that stores a claimed
    address in [node_addr]; the header only declares the storage and the
    three address constants, and the code that claims an address is not
    part of it.  The
    spec has [commit] mark the address as claimed and reject the two
    sentinels [0xFE] and [0xFF]. *)
Definition commit (ts_can : thingset_can) (address : Z) : option thingset_can :=
  if (address =? THINGSET_CAN_ADDR_ANONYMOUS) || (address =? THINGSET_CAN_ADDR_BROADCAST)
  then None
  else Some {| next_pub_time := next_pub_time ts_can;
               node_addr := address;
               pub_enable := pub_enable ts_can |}.

(** An address as [uint8_t node_addr] can hold it. *)
Definition is_addr (a : Z) : Prop := 0 <= a < 2 ^ 8.

(** * Properties *)

(** ** Bit-level lemmas shared by all fields *)

Ltac unfold_uint32 :=
  unfold Uint32.cast, Uint32.shl, Uint32.shr, Uint32.in_range, Uint32.modulus,
    Uint32.width in *.

(** Push [Z.testbit] through the operations the macros are made of. *)
Ltac testbits :=
  repeat first
    [ rewrite Z.land_spec
    | rewrite Z.lor_spec
    | rewrite Z.testbit_mod_pow2 by lia
    | rewrite Z.testbit_ones by lia
    | rewrite Z.shiftl_spec by lia
    | rewrite Z.shiftr_spec by lia ].

(** Decide the index comparisons left by [testbits]. *)
Ltac split_index :=
  repeat match goal with
    | |- context [?a <? ?b] => destruct (Z.ltb_spec a b)
    | |- context [?a <=? ?b] => destruct (Z.leb_spec a b)
    end;
  cbn [andb orb]; rewrite ?andb_true_r, ?andb_false_r, ?orb_false_r;
  try reflexivity; try lia;
  try (rewrite Z.testbit_neg_r by lia; reflexivity);
  try (f_equal; lia).

Ltac bitwise := apply Z.bits_inj'; intros; testbits; split_index.

Lemma shiftr_shiftl_same (x n : Z) : 0 <= n -> Z.shiftr (Z.shiftl x n) n = x.
Proof.
  intros Hn. rewrite Z.shiftr_shiftl_l, Z.sub_diag by lia. apply Z.shiftl_0_r.
Qed.

Lemma mod_pow2_idem (x n : Z) : 0 <= n -> (x mod 2 ^ n) mod 2 ^ n = x mod 2 ^ n.
Proof. intros Hn. apply Z.mod_mod, Z.pow_nonzero; lia. Qed.

(** A non-negative number below [2^w] has no bit at [w] or above. *)
Lemma testbit_small (v w n : Z) :
  0 <= v < 2 ^ w -> 0 <= w -> w <= n -> Z.testbit v n = false.
Proof.
  intros Hv Hw Hn. rewrite <- (Z.mod_small v (2 ^ w)) by lia.
  apply Z.mod_pow2_bits_high. lia.
Qed.

(** Reading the [w] bits at [pos], as a bit test. *)
Lemma testbit_slice (id pos w n : Z) :
  0 <= pos -> 0 <= w -> 0 <= n ->
  Z.testbit (Z.shiftr id pos mod 2 ^ w) n = (n <? w) && Z.testbit id (n + pos).
Proof.
  intros Hpos Hw Hn. rewrite Z.testbit_mod_pow2, Z.shiftr_spec by lia. reflexivity.
Qed.

(** A [w]-bit value placed at [pos], as a bit test. *)
Lemma testbit_placed (v pos w n : Z) :
  0 <= pos -> 0 <= w -> 0 <= n ->
  Z.testbit (Z.shiftl (v mod 2 ^ w) pos) n
  = (pos <=? n) && (n <? pos + w) && Z.testbit v (n - pos).
Proof.
  intros Hpos Hw Hn. rewrite Z.shiftl_spec by lia.
  destruct (Z.leb_spec pos n) as [Hge | Hlt].
  - rewrite Z.testbit_mod_pow2 by lia.
    replace (n - pos <? w) with (n <? pos + w); [reflexivity|].
    destruct (Z.ltb_spec n (pos + w)), (Z.ltb_spec (n - pos) w); lia || reflexivity.
  - rewrite Z.testbit_neg_r by lia. reflexivity.
Qed.

(** A placed value lies inside the mask of its field. *)
Lemma land_placed_mask (v pos w : Z) :
  0 <= pos -> 0 <= w ->
  Z.land (Z.shiftl (v mod 2 ^ w) pos) (Z.shiftl (Z.ones w) pos)
  = Z.shiftl (v mod 2 ^ w) pos.
Proof.
  intros Hpos Hw.
  rewrite <- Z.shiftl_land, Z.land_ones, mod_pow2_idem by lia. reflexivity.
Qed.

(** A placed value that ends at or below bit [n] is below [2^n]. *)
Lemma placed_below (n v pos w : Z) :
  0 <= pos -> 0 <= w -> pos + w <= n -> 0 <= Z.shiftl (v mod 2 ^ w) pos < 2 ^ n.
Proof.
  intros Hpos Hw Hfit.
  rewrite Z.shiftl_mul_pow2 by lia.
  pose proof (Z.mod_pos_bound v (2 ^ w) ltac:(apply Z.pow_pos_nonneg; lia)) as Hv.
  assert (Hp : 0 < 2 ^ pos) by (apply Z.pow_pos_nonneg; lia).
  assert (Hle : 2 ^ (pos + w) <= 2 ^ n) by (apply Z.pow_le_mono_r; lia).
  rewrite Z.pow_add_r in Hle by lia. nia.
Qed.

(** OR does not reach above the wider of its arguments. *)
Lemma lor_below (n a b : Z) :
  0 <= n -> 0 <= a < 2 ^ n -> 0 <= b < 2 ^ n -> 0 <= Z.lor a b < 2 ^ n.
Proof.
  intros Hn Ha Hb.
  assert (Heq : Z.lor a b = Z.lor a b mod 2 ^ n).
  { apply Z.bits_inj'; intros i Hi.
    rewrite Z.testbit_mod_pow2, Z.lor_spec by lia.
    destruct (Z.ltb_spec i n) as [Hlow | Hhigh]; [reflexivity|].
    rewrite (testbit_small a n i), (testbit_small b n i) by lia. reflexivity. }
  rewrite Heq. apply Z.mod_pos_bound. apply Z.pow_pos_nonneg; lia.
Qed.

(** OR-ing a value cut to mask [m] into a word leaves the bits of a mask
    disjoint from [m] as they were. *)
Lemma lor_keeps_disjoint (m m' id x : Z) :
  Z.land m m' = 0 -> Z.land (Z.lor id (Z.land x m)) m' = Z.land id m'.
Proof.
  intros Hdisjoint.
  rewrite Z.land_lor_distr_l, <- Z.land_assoc, Hdisjoint, Z.land_0_r, Z.lor_0_r.
  reflexivity.
Qed.

Section Field.

(** A field of [w] bits at position [pos] inside a 32-bit word. *)
Variables pos w : Z.
Hypothesis pos_nonneg : 0 <= pos.
Hypothesis w_nonneg : 0 <= w.
Hypothesis fits : pos + w <= 32.

Let mask : Z := Z.shiftl (Z.ones w) pos.

(** The masked setter keeps the low [w] bits of its argument and puts
    them at [pos]. *)
Lemma field_set_value (v : Z) :
  Z.land (Uint32.shl (Uint32.cast v) pos) mask = Z.shiftl (v mod 2 ^ w) pos.
Proof using pos_nonneg w_nonneg fits.
  subst mask. unfold_uint32. bitwise.
Qed.

(** The getter reads the [w] bits at [pos]. *)
Lemma field_get_value (id : Z) :
  Uint32.shr (Z.land (Uint32.cast id) mask) pos = (Z.shiftr id pos) mod 2 ^ w.
Proof using pos_nonneg w_nonneg fits.
  subst mask. unfold_uint32. bitwise.
Qed.

End Field.

(** ** What each setter and getter computes *)

Lemma SOURCE_SET_value (v : Z) : THINGSET_CAN_SOURCE_SET v = Z.shiftl (v mod 2 ^ 8) 0.
Proof. exact (field_set_value 0 8 ltac:(lia) ltac:(lia) ltac:(lia) v). Qed.

Lemma TARGET_SET_value (v : Z) : THINGSET_CAN_TARGET_SET v = Z.shiftl (v mod 2 ^ 8) 8.
Proof. exact (field_set_value 8 8 ltac:(lia) ltac:(lia) ltac:(lia) v). Qed.

Lemma BUS_ID_SET_value (v : Z) : THINGSET_CAN_BUS_ID_SET v = Z.shiftl (v mod 2 ^ 8) 16.
Proof. exact (field_set_value 16 8 ltac:(lia) ltac:(lia) ltac:(lia) v). Qed.

Lemma DATA_ID_SET_value (v : Z) : THINGSET_CAN_DATA_ID_SET v = Z.shiftl (v mod 2 ^ 16) 8.
Proof. exact (field_set_value 8 16 ltac:(lia) ltac:(lia) ltac:(lia) v). Qed.

(** The priority setter has no mask: it keeps the low 6 bits of its
    argument, the most a 32-bit word holds from bit 26 up. *)
Lemma PRIO_SET_value (v : Z) : THINGSET_CAN_PRIO_SET v = Z.shiftl (v mod 2 ^ 6) 26.
Proof.
  unfold THINGSET_CAN_PRIO_SET, THINGSET_CAN_PRIO_POS. unfold_uint32. bitwise.
Qed.

Lemma SOURCE_GET_value (id : Z) : THINGSET_CAN_SOURCE_GET id = Z.shiftr id 0 mod 2 ^ 8.
Proof. exact (field_get_value 0 8 ltac:(lia) ltac:(lia) ltac:(lia) id). Qed.

Lemma TARGET_GET_value (id : Z) : THINGSET_CAN_TARGET_GET id = Z.shiftr id 8 mod 2 ^ 8.
Proof. exact (field_get_value 8 8 ltac:(lia) ltac:(lia) ltac:(lia) id). Qed.

Lemma BUS_ID_GET_value (id : Z) : THINGSET_CAN_BUS_ID_GET id = Z.shiftr id 16 mod 2 ^ 8.
Proof. exact (field_get_value 16 8 ltac:(lia) ltac:(lia) ltac:(lia) id). Qed.

Lemma DATA_ID_GET_value (id : Z) : THINGSET_CAN_DATA_ID_GET id = Z.shiftr id 8 mod 2 ^ 16.
Proof. exact (field_get_value 8 16 ltac:(lia) ltac:(lia) ltac:(lia) id). Qed.

Lemma PRIO_GET_value (id : Z) : THINGSET_CAN_PRIO_GET id = Z.shiftr id 26 mod 2 ^ 3.
Proof. exact (field_get_value 26 3 ltac:(lia) ltac:(lia) ltac:(lia) id). Qed.

(** The type test of the predicates reads bits 25-24. *)
Lemma TYPE_MASK_value (id : Z) :
  Z.land id THINGSET_CAN_TYPE_MASK = Z.shiftl (Z.shiftr id 24 mod 2 ^ 2) 24.
Proof.
  change THINGSET_CAN_TYPE_MASK with (Z.shiftl (Z.ones 2) 24).
  apply Z.bits_inj'; intros n Hn. testbits.
  destruct (Z.ltb_spec n 24) as [Hlow | Hhigh].
  - rewrite (Z.testbit_neg_r _ (n - 24)) by lia. split_index.
  - rewrite Z.shiftr_spec by lia. replace (n - 24 + 24) with n by lia.
    split_index.
Qed.

Create Rewrite HintDb can_fields.
#[local] Hint Rewrite SOURCE_SET_value TARGET_SET_value BUS_ID_SET_value
  DATA_ID_SET_value PRIO_SET_value SOURCE_GET_value TARGET_GET_value
  BUS_ID_GET_value DATA_ID_GET_value PRIO_GET_value : can_fields.

(** The priority setter below 2^6, where the shift does not wrap. *)
Lemma PRIO_SET_small (p : Z) : 0 <= p < 2 ^ 6 -> THINGSET_CAN_PRIO_SET p = p * 2 ^ 26.
Proof.
  intros Hp. rewrite PRIO_SET_value, Z.mod_small, Z.shiftl_mul_pow2 by lia. reflexivity.
Qed.

(** From 2^6 on the shift wraps around. *)
Example PRIO_SET_wraps : THINGSET_CAN_PRIO_SET 64 = 0.
Proof. reflexivity. Qed.

(** The priority read from any word is a 3-bit value. *)
Lemma PRIO_GET_range (id : Z) : 0 <= THINGSET_CAN_PRIO_GET id <= 7.
Proof.
  rewrite PRIO_GET_value.
  pose proof (Z.mod_pos_bound (Z.shiftr id 26) (2 ^ 3) ltac:(lia)). lia.
Qed.

(** The priority of a 29-bit identifier is all that lies above bit 25. *)
Lemma PRIO_GET_can_id (id : Z) : is_can_id id -> THINGSET_CAN_PRIO_GET id = id / 2 ^ 26.
Proof.
  unfold is_can_id. intros Hid.
  rewrite PRIO_GET_value, Z.shiftr_div_pow2 by lia.
  apply Z.mod_small. split.
  - apply Z.div_pos; lia.
  - apply Z.div_lt_upper_bound; lia.
Qed.

(** ** Whole identifiers *)

(** Reading a slice distributes over OR. *)
Lemma slice_lor (a b pos w : Z) :
  0 <= w ->
  Z.shiftr (Z.lor a b) pos mod 2 ^ w
  = Z.lor (Z.shiftr a pos mod 2 ^ w) (Z.shiftr b pos mod 2 ^ w).
Proof.
  intros Hw. rewrite <- !Z.land_ones, Z.shiftr_lor, Z.land_lor_distr_l by lia.
  reflexivity.
Qed.

(** Reading at the position a value was placed at gives its low bits. *)
Lemma slice_placed_same (v pos w w' : Z) :
  0 <= pos -> 0 <= w <= w' ->
  Z.shiftr (Z.shiftl (v mod 2 ^ w') pos) pos mod 2 ^ w = v mod 2 ^ w.
Proof.
  intros Hpos Hw. rewrite shiftr_shiftl_same by lia. bitwise.
Qed.

(** Reading a slice that does not meet the placed value gives 0. *)
Lemma slice_placed_apart (v pos' w' pos w : Z) :
  0 <= pos -> 0 <= pos' -> 0 <= w -> 0 <= w' ->
  pos' + w' <= pos \/ pos + w <= pos' ->
  Z.shiftr (Z.shiftl (v mod 2 ^ w') pos') pos mod 2 ^ w = 0.
Proof.
  intros Hpos Hpos' Hw Hw' Hapart.
  apply Z.bits_inj'; intros n Hn.
  rewrite testbit_slice, testbit_placed, Z.testbit_0_l by lia.
  split_index.
Qed.

(** Read a slice of an OR of placed fields: the field at the slice's
    position stays, the others vanish. *)
Ltac slices :=
  rewrite !slice_lor by lia;
  rewrite ?slice_placed_same by lia;
  rewrite ?slice_placed_apart by lia;
  rewrite ?Z.lor_0_l, ?Z.lor_0_r;
  reflexivity.

Lemma channel_id_value (prio bus_id target source : Z) :
  channel_id prio bus_id target source
  = Z.lor (Z.lor (Z.lor (Z.lor (Z.shiftl (prio mod 2 ^ 6) 26) (Z.shiftl (0 mod 2 ^ 2) 24))
                        (Z.shiftl (bus_id mod 2 ^ 8) 16))
                 (Z.shiftl (target mod 2 ^ 8) 8))
          (Z.shiftl (source mod 2 ^ 8) 0).
Proof. unfold channel_id. autorewrite with can_fields. reflexivity. Qed.

Lemma report_id_value (prio data_id source : Z) :
  report_id prio data_id source
  = Z.lor (Z.lor (Z.lor (Z.shiftl (prio mod 2 ^ 6) 26) (Z.shiftl (2 mod 2 ^ 2) 24))
                 (Z.shiftl (data_id mod 2 ^ 16) 8))
          (Z.shiftl (source mod 2 ^ 8) 0).
Proof. unfold report_id. autorewrite with can_fields. reflexivity. Qed.

Lemma network_id_value (prio rand target source : Z) :
  network_id prio rand target source
  = Z.lor (Z.lor (Z.lor (Z.lor (Z.shiftl (prio mod 2 ^ 6) 26) (Z.shiftl (3 mod 2 ^ 2) 24))
                        (Z.shiftl (rand mod 2 ^ 8) 16))
                 (Z.shiftl (target mod 2 ^ 8) 8))
          (Z.shiftl (source mod 2 ^ 8) 0).
Proof.
  unfold network_id, THINGSET_CAN_RAND_SET. autorewrite with can_fields. reflexivity.
Qed.

(** Whatever is put into a channel identifier, each getter reads back the
    low bits of its field. *)
Lemma channel_id_fields (prio bus_id target source : Z) :
  THINGSET_CAN_PRIO_GET (channel_id prio bus_id target source) = prio mod 2 ^ 3
  /\ THINGSET_CAN_BUS_ID_GET (channel_id prio bus_id target source) = bus_id mod 2 ^ 8
  /\ THINGSET_CAN_TARGET_GET (channel_id prio bus_id target source) = target mod 2 ^ 8
  /\ THINGSET_CAN_SOURCE_GET (channel_id prio bus_id target source) = source mod 2 ^ 8.
Proof.
  autorewrite with can_fields. rewrite channel_id_value.
  repeat split; slices.
Qed.

Lemma report_id_fields (prio data_id source : Z) :
  THINGSET_CAN_PRIO_GET (report_id prio data_id source) = prio mod 2 ^ 3
  /\ THINGSET_CAN_DATA_ID_GET (report_id prio data_id source) = data_id mod 2 ^ 16
  /\ THINGSET_CAN_SOURCE_GET (report_id prio data_id source) = source mod 2 ^ 8.
Proof.
  autorewrite with can_fields. rewrite report_id_value.
  repeat split; slices.
Qed.

Lemma network_id_fields (prio rand target source : Z) :
  THINGSET_CAN_PRIO_GET (network_id prio rand target source) = prio mod 2 ^ 3
  /\ THINGSET_CAN_RAND_GET (network_id prio rand target source) = rand mod 2 ^ 8
  /\ THINGSET_CAN_TARGET_GET (network_id prio rand target source) = target mod 2 ^ 8
  /\ THINGSET_CAN_SOURCE_GET (network_id prio rand target source) = source mod 2 ^ 8.
Proof.
  unfold THINGSET_CAN_RAND_GET.
  autorewrite with can_fields. rewrite network_id_value.
  repeat split; slices.
Qed.

(** The type bits of the three layouts. *)
Lemma layout_type_bits (prio b t s data_id : Z) :
  Z.land (channel_id prio b t s) THINGSET_CAN_TYPE_MASK = THINGSET_CAN_TYPE_CHANNEL
  /\ Z.land (report_id prio data_id s) THINGSET_CAN_TYPE_MASK = THINGSET_CAN_TYPE_REPORT
  /\ Z.land (network_id prio b t s) THINGSET_CAN_TYPE_MASK = THINGSET_CAN_TYPE_NETWORK.
Proof.
  rewrite !TYPE_MASK_value, channel_id_value, report_id_value, network_id_value.
  change THINGSET_CAN_TYPE_CHANNEL with (Z.shiftl (0 mod 2 ^ 2) 24).
  change THINGSET_CAN_TYPE_REPORT with (Z.shiftl (2 mod 2 ^ 2) 24).
  change THINGSET_CAN_TYPE_NETWORK with (Z.shiftl (3 mod 2 ^ 2) 24).
  repeat split; f_equal; slices.
Qed.

(** Every layout yields a 32-bit value. *)
Lemma layouts_in_range (prio b t s data_id : Z) :
  Uint32.in_range (channel_id prio b t s)
  /\ Uint32.in_range (report_id prio data_id s)
  /\ Uint32.in_range (network_id prio b t s).
Proof.
  rewrite channel_id_value, report_id_value, network_id_value. unfold_uint32.
  split; [|split]; repeat apply lor_below; try apply placed_below; lia.
Qed.

(** With a 3-bit priority every layout yields a 29-bit identifier. *)
Lemma layouts_can_id (prio b t s data_id : Z) :
  0 <= prio < 8 ->
  is_can_id (channel_id prio b t s)
  /\ is_can_id (report_id prio data_id s)
  /\ is_can_id (network_id prio b t s).
Proof.
  intros Hprio.
  rewrite channel_id_value, report_id_value, network_id_value. unfold is_can_id.
  replace (prio mod 2 ^ 6) with (prio mod 2 ^ 3) by (rewrite !Z.mod_small by lia; reflexivity).
  split; [|split]; repeat apply lor_below; try apply placed_below; lia.
Qed.

(** The identifier only depends on the low bits of the masked fields. *)
Lemma channel_id_truncates (prio bus_id target source : Z) :
  channel_id prio bus_id target source
  = channel_id prio (bus_id mod 2 ^ 8) (target mod 2 ^ 8) (source mod 2 ^ 8).
Proof.
  rewrite !channel_id_value, !mod_pow2_idem by lia. reflexivity.
Qed.

Lemma report_id_truncates (prio data_id source : Z) :
  report_id prio data_id source = report_id prio (data_id mod 2 ^ 16) (source mod 2 ^ 8).
Proof.
  rewrite !report_id_value, !mod_pow2_idem by lia. reflexivity.
Qed.

(** ** Round trip of the fields *)

(** C1: a field value within its declared width is read back unchanged.
    For priority < 8, source, target and bus_id < 0x100 and
    data_id < 0x10000, each GET macro applied to the output of its SET
    macro returns the value that was set; and so does each GET macro
    applied to a whole identifier, channel or report, built from them. *)
Theorem get_set_roundtrip (prio source target bus_id data_id : Z) :
  0 <= prio < 8 ->
  0 <= source < 0x100 ->
  0 <= target < 0x100 ->
  0 <= bus_id < 0x100 ->
  0 <= data_id < 0x10000 ->
  (THINGSET_CAN_PRIO_GET (THINGSET_CAN_PRIO_SET prio) = prio
   /\ THINGSET_CAN_SOURCE_GET (THINGSET_CAN_SOURCE_SET source) = source
   /\ THINGSET_CAN_TARGET_GET (THINGSET_CAN_TARGET_SET target) = target
   /\ THINGSET_CAN_BUS_ID_GET (THINGSET_CAN_BUS_ID_SET bus_id) = bus_id
   /\ THINGSET_CAN_DATA_ID_GET (THINGSET_CAN_DATA_ID_SET data_id) = data_id)
  /\ (is_can_id (channel_id prio bus_id target source)
      /\ THINGSET_CAN_PRIO_GET (channel_id prio bus_id target source) = prio
      /\ THINGSET_CAN_BUS_ID_GET (channel_id prio bus_id target source) = bus_id
      /\ THINGSET_CAN_TARGET_GET (channel_id prio bus_id target source) = target
      /\ THINGSET_CAN_SOURCE_GET (channel_id prio bus_id target source) = source)
  /\ (is_can_id (report_id prio data_id source)
      /\ THINGSET_CAN_PRIO_GET (report_id prio data_id source) = prio
      /\ THINGSET_CAN_DATA_ID_GET (report_id prio data_id source) = data_id
      /\ THINGSET_CAN_SOURCE_GET (report_id prio data_id source) = source).
Proof.
  intros Hp Hs Ht Hb Hd.
  destruct (channel_id_fields prio bus_id target source) as (-> & -> & -> & ->).
  destruct (report_id_fields prio data_id source) as (-> & -> & ->).
  destruct (layouts_can_id prio bus_id target source data_id Hp) as (Hchan & Hrep & _).
  autorewrite with can_fields.
  rewrite !shiftr_shiftl_same, !mod_pow2_idem by lia.
  rewrite (Z.mod_small prio (2 ^ 6)) by lia.
  split; [|split]; (split; [|repeat split]); try apply Z.mod_small; try lia; assumption.
Qed.

Lemma get_set_roundtrip_witness :
  (THINGSET_CAN_PRIO_GET (THINGSET_CAN_PRIO_SET 6) = 6
   /\ THINGSET_CAN_SOURCE_GET (THINGSET_CAN_SOURCE_SET 0x01) = 0x01
   /\ THINGSET_CAN_TARGET_GET (THINGSET_CAN_TARGET_SET 0x05) = 0x05
   /\ THINGSET_CAN_BUS_ID_GET (THINGSET_CAN_BUS_ID_SET 0xDA) = 0xDA
   /\ THINGSET_CAN_DATA_ID_GET (THINGSET_CAN_DATA_ID_SET 0x1234) = 0x1234)
  /\ THINGSET_CAN_TARGET_GET (channel_id 6 0xDA 0x05 0x01) = 0x05
  /\ THINGSET_CAN_DATA_ID_GET (report_id 6 0x1234 0x01) = 0x1234.
Proof.
  destruct (get_set_roundtrip 6 0x01 0x05 0xDA 0x1234
              ltac:(lia) ltac:(lia) ltac:(lia) ltac:(lia) ltac:(lia))
    as (Hmacro & Hchan & Hrep).
  split; [exact Hmacro|]. split; [apply Hchan | apply Hrep].
Defined.

(** ** Classification *)

(** The two type bits take one of four patterns. *)
Lemma type_tag_cases (id : Z) :
  Z.land id THINGSET_CAN_TYPE_MASK = THINGSET_CAN_TYPE_CHANNEL
  \/ Z.land id THINGSET_CAN_TYPE_MASK = type_tag_reserved
  \/ Z.land id THINGSET_CAN_TYPE_MASK = THINGSET_CAN_TYPE_REPORT
  \/ Z.land id THINGSET_CAN_TYPE_MASK = THINGSET_CAN_TYPE_NETWORK.
Proof.
  rewrite TYPE_MASK_value.
  pose proof (Z.mod_pos_bound (Z.shiftr id 24) (2 ^ 2) ltac:(lia)) as Htag.
  assert (Hcases : Z.shiftr id 24 mod 2 ^ 2 = 0 \/ Z.shiftr id 24 mod 2 ^ 2 = 1
                   \/ Z.shiftr id 24 mod 2 ^ 2 = 2 \/ Z.shiftr id 24 mod 2 ^ 2 = 3)
    by lia.
  destruct Hcases as [-> | [-> | [-> | ->]]]; auto.
Qed.

(** The two priority tests of the predicates are complementary. *)
Lemma prio_geb_ltb (p : Z) : (p >=? 4) = negb (p <? 4).
Proof. rewrite Z.geb_leb. apply Z.leb_antisym. Qed.

(** Reduce the predicates to the type-tag case [Htag] and the priority test. *)
Ltac classify id Htag :=
  unfold in_class, THINGSET_CAN_CHANNEL, THINGSET_CAN_REPORT, THINGSET_CAN_CONTROL,
    type_is_network, type_is_reserved, THINGSET_CAN_TYPE_CONTROL;
  rewrite ?prio_geb_ltb, ?Htag;
  destruct (THINGSET_CAN_PRIO_GET id <? 4).

Lemma predicates_exclusive (id : Z) :
  THINGSET_CAN_CHANNEL id && THINGSET_CAN_REPORT id = false
  /\ THINGSET_CAN_CHANNEL id && THINGSET_CAN_CONTROL id = false
  /\ THINGSET_CAN_CHANNEL id && type_is_network id = false
  /\ THINGSET_CAN_REPORT id && THINGSET_CAN_CONTROL id = false
  /\ THINGSET_CAN_REPORT id && type_is_network id = false
  /\ THINGSET_CAN_CONTROL id && type_is_network id = false.
Proof.
  destruct (type_tag_cases id) as [Htag | [Htag | [Htag | Htag]]];
    classify id Htag; repeat split; reflexivity.
Qed.

Lemma reserved_is_unknown (id : Z) :
  type_is_reserved id = true ->
  THINGSET_CAN_CHANNEL id = false /\ THINGSET_CAN_REPORT id = false
  /\ THINGSET_CAN_CONTROL id = false /\ type_is_network id = false.
Proof.
  destruct (type_tag_cases id) as [Htag | [Htag | [Htag | Htag]]];
    classify id Htag; intros Hres; try discriminate Hres; repeat split; reflexivity.
Qed.

(** The class of an identifier is the one its type bits name. *)
Lemma class_of_tag (id : Z) (tag : Z) (c : msg_class) :
  In (tag, c) [(THINGSET_CAN_TYPE_CHANNEL, Channel); (type_tag_reserved, Unknown);
               (THINGSET_CAN_TYPE_REPORT, Report); (THINGSET_CAN_TYPE_NETWORK, NetworkMgmt)] ->
  Z.land id THINGSET_CAN_TYPE_MASK = tag ->
  forall c', in_class c' id = true <-> c' = c.
Proof.
  intros Hin Htag c'. cbn [In] in Hin.
  destruct Hin as [Heq | [Heq | [Heq | [Heq | []]]]];
    injection Heq as <- <-; destruct c'; classify id Htag; cbn; split; congruence.
Qed.

Lemma class_count_one (id : Z) : class_count id = 1%nat.
Proof.
  unfold class_count, all_classes.
  destruct (type_tag_cases id) as [Htag | [Htag | [Htag | Htag]]];
    cbn [filter]; classify id Htag; reflexivity.
Qed.

(** C2: for every 29-bit identifier the predicates [THINGSET_CAN_CHANNEL],
    [THINGSET_CAN_REPORT], [THINGSET_CAN_CONTROL] and the network-management
    tag test are pairwise mutually exclusive; an identifier whose type bits
    are the remaining pattern 0x1 satisfies none of them (it is Unknown);
    and exactly one of the four classes Channel, Report (with Control),
    NetworkMgmt, Unknown holds. *)
Theorem classification_partition (id : Z) :
  is_can_id id ->
  (THINGSET_CAN_CHANNEL id && THINGSET_CAN_REPORT id = false
   /\ THINGSET_CAN_CHANNEL id && THINGSET_CAN_CONTROL id = false
   /\ THINGSET_CAN_CHANNEL id && type_is_network id = false
   /\ THINGSET_CAN_REPORT id && THINGSET_CAN_CONTROL id = false
   /\ THINGSET_CAN_REPORT id && type_is_network id = false
   /\ THINGSET_CAN_CONTROL id && type_is_network id = false)
  /\ (type_is_reserved id = true ->
      THINGSET_CAN_CHANNEL id = false /\ THINGSET_CAN_REPORT id = false
      /\ THINGSET_CAN_CONTROL id = false /\ type_is_network id = false)
  /\ class_count id = 1%nat
  /\ exists c, in_class c id = true /\ forall c', in_class c' id = true -> c' = c.
Proof.
  intros _.
  split; [apply predicates_exclusive|].
  split; [apply reserved_is_unknown|].
  split; [apply class_count_one|].
  pose proof (class_of_tag id) as Hclass.
  destruct (type_tag_cases id) as [Htag | [Htag | [Htag | Htag]]];
    [exists Channel | exists Unknown | exists Report | exists NetworkMgmt].
  all: split; [|intros c']; eapply Hclass; eauto; cbn [In]; tauto.
Qed.

Lemma classification_partition_witness :
  is_can_id 0x18DA0501
  /\ class_count 0x18DA0501 = 1%nat
  /\ THINGSET_CAN_CHANNEL 0x18DA0501 && THINGSET_CAN_REPORT 0x18DA0501 = false.
Proof.
  assert (Hid : is_can_id 0x18DA0501) by (unfold is_can_id; lia).
  destruct (classification_partition 0x18DA0501 Hid) as ((Hexcl & _) & _ & Hcount & _).
  auto.
Defined.

(** The three layouts fall into the classes they are drawn for. *)
Lemma layout_classes (prio b t s data_id : Z) :
  in_class Channel (channel_id prio b t s) = true
  /\ in_class Report (report_id prio data_id s) = true
  /\ in_class NetworkMgmt (network_id prio b t s) = true.
Proof.
  destruct (layout_type_bits prio b t s data_id) as (Hchan & Hrep & Hnet).
  split; [|split].
  - classify (channel_id prio b t s) Hchan; reflexivity.
  - classify (report_id prio data_id s) Hrep; reflexivity.
  - classify (network_id prio b t s) Hnet; reflexivity.
Qed.

(** C3: within the Report type tag the priority alone tells control from
    report: a 29-bit identifier with type bits 0x2 satisfies
    [THINGSET_CAN_CONTROL] and not [THINGSET_CAN_REPORT] when its priority
    field is 0..3, and [THINGSET_CAN_REPORT] and not [THINGSET_CAN_CONTROL]
    when it is 4..7; one of the two ranges always applies. *)
Theorem report_tag_priority_split (id : Z) :
  is_can_id id ->
  Z.land id THINGSET_CAN_TYPE_MASK = THINGSET_CAN_TYPE_REPORT ->
  THINGSET_CAN_PRIO_GET id = id / 2 ^ 26
  /\ (0 <= THINGSET_CAN_PRIO_GET id <= 3 \/ 4 <= THINGSET_CAN_PRIO_GET id <= 7)
  /\ (0 <= THINGSET_CAN_PRIO_GET id <= 3 ->
      THINGSET_CAN_CONTROL id = true /\ THINGSET_CAN_REPORT id = false)
  /\ (4 <= THINGSET_CAN_PRIO_GET id <= 7 ->
      THINGSET_CAN_REPORT id = true /\ THINGSET_CAN_CONTROL id = false)
  /\ THINGSET_CAN_CONTROL id = (THINGSET_CAN_PRIO_GET id <? 4)
  /\ THINGSET_CAN_REPORT id = negb (THINGSET_CAN_PRIO_GET id <? 4).
Proof.
  intros Hid Htag.
  pose proof (PRIO_GET_range id) as Hrange.
  split; [apply PRIO_GET_can_id, Hid|].
  split; [lia|].
  unfold THINGSET_CAN_CONTROL, THINGSET_CAN_REPORT, THINGSET_CAN_TYPE_CONTROL.
  rewrite prio_geb_ltb, Htag, Z.eqb_refl. cbn [andb].
  destruct (Z.ltb_spec (THINGSET_CAN_PRIO_GET id) 4) as [Hlow | Hhigh];
    repeat split; try reflexivity; lia.
Qed.

Lemma report_tag_priority_split_witness :
  (THINGSET_CAN_CONTROL 0x0A123401 = true /\ THINGSET_CAN_REPORT 0x0A123401 = false)
  /\ (THINGSET_CAN_REPORT 0x16123401 = true /\ THINGSET_CAN_CONTROL 0x16123401 = false).
Proof.
  assert (Hlow : is_can_id 0x0A123401) by (unfold is_can_id; lia).
  assert (Hhigh : is_can_id 0x16123401) by (unfold is_can_id; lia).
  destruct (report_tag_priority_split 0x0A123401 Hlow eq_refl) as (_ & _ & Hcontrol & _).
  destruct (report_tag_priority_split 0x16123401 Hhigh eq_refl) as (_ & _ & _ & Hreport & _).
  split; [apply Hcontrol | apply Hreport]; vm_compute; split; discriminate.
Defined.

(** The same on an identifier built by the report layout. *)
Lemma report_id_class (prio data_id source : Z) :
  0 <= prio < 8 ->
  THINGSET_CAN_CONTROL (report_id prio data_id source) = (prio <? 4)
  /\ THINGSET_CAN_REPORT (report_id prio data_id source) = negb (prio <? 4).
Proof.
  intros Hprio.
  destruct (layout_type_bits prio 0 0 source data_id) as (_ & Htag & _).
  destruct (report_id_fields prio data_id source) as (Hget & _).
  unfold THINGSET_CAN_CONTROL, THINGSET_CAN_REPORT, THINGSET_CAN_TYPE_CONTROL.
  rewrite prio_geb_ltb, Htag, Z.eqb_refl, Hget, Z.mod_small by lia.
  split; reflexivity.
Qed.

(** ** The documented channel identifier *)

(** C4: OR-ing [THINGSET_CAN_PRIO_SET(6)], [THINGSET_CAN_TYPE_CHANNEL],
    [THINGSET_CAN_BUS_ID_SET(0xDA)], [THINGSET_CAN_TARGET_SET(0x05)] and
    [THINGSET_CAN_SOURCE_SET(0x01)] gives the identifier 0x18DA0501. *)
Theorem channel_scenario_id :
  Z.lor (Z.lor (Z.lor (Z.lor (THINGSET_CAN_PRIO_SET 6) THINGSET_CAN_TYPE_CHANNEL)
                      (THINGSET_CAN_BUS_ID_SET 0xDA))
               (THINGSET_CAN_TARGET_SET 0x05))
        (THINGSET_CAN_SOURCE_SET 0x01)
  = 0x18DA0501
  /\ channel_id 6 THINGSET_CAN_BUS_ID_DEFAULT 0x05 0x01 = 0x18DA0501
  /\ (THINGSET_CAN_PRIO_SET 6 = 0x18000000
      /\ THINGSET_CAN_PRIO_SET 6 = THINGSET_CAN_PRIO_CHANNEL
      /\ THINGSET_CAN_TYPE_CHANNEL = 0
      /\ THINGSET_CAN_BUS_ID_SET 0xDA = 0xDA0000
      /\ THINGSET_CAN_TARGET_SET 0x05 = 0x0500
      /\ THINGSET_CAN_SOURCE_SET 0x01 = 0x01).
Proof. repeat split; reflexivity. Qed.

(** ** Over-width input *)

(** C5, as stated, fails: a source address of 0x101 exceeds 8 bits, and the
    identifier is built all the same; it is the one of source 0x01.  So
    is one from a data ID of 0x10000, and one from a priority of 8. *)
Lemma encode_overwidth_is_packed :
  exceeds_width 8 0x101
  /\ encode_channel 6 0xDA 0x05 0x101 = Packed 0x18DA0501
  /\ encode_channel 6 0xDA 0x05 0x101 <> InvalidField
  /\ exceeds_width 16 0x10000
  /\ encode_report 7 0x10000 0x01 = Packed 0x1E000001
  /\ exceeds_width 3 8
  /\ encode_channel 8 0xDA 0x05 0x01 = Packed 0x20DA0501.
Proof.
  unfold exceeds_width.
  repeat split; try lia; try reflexivity; discriminate.
Qed.

(** C5, amended: building an identifier never fails.  For every input it
    yields a 32-bit value, and a source, target, bus ID or data ID wider
    than its field is cut down to the field's low 8 (16) bits. *)
Theorem encode_never_fails (prio bus_id target source data_id : Z) :
  (exists id, encode_channel prio bus_id target source = Packed id /\ Uint32.in_range id)
  /\ (exists id, encode_report prio data_id source = Packed id /\ Uint32.in_range id)
  /\ encode_channel prio bus_id target source <> InvalidField
  /\ encode_report prio data_id source <> InvalidField
  /\ encode_channel prio bus_id target source
     = encode_channel prio (bus_id mod 2 ^ 8) (target mod 2 ^ 8) (source mod 2 ^ 8)
  /\ encode_report prio data_id source
     = encode_report prio (data_id mod 2 ^ 16) (source mod 2 ^ 8).
Proof.
  destruct (layouts_in_range prio bus_id target source data_id) as (Hchan & Hrep & _).
  unfold encode_channel, encode_report.
  split; [eexists; split; [reflexivity | exact Hchan]|].
  split; [eexists; split; [reflexivity | exact Hrep]|].
  split; [discriminate|]. split; [discriminate|].
  split; f_equal; [apply channel_id_truncates | apply report_id_truncates].
Qed.

(** ** Node addresses *)

(** C6: the assignable addresses are exactly 0x00..0xFD; 0xFE (anonymous)
    and 0xFF (broadcast) are rejected by [commit], and after a successful
    [commit] the claimed address is at most [THINGSET_CAN_ADDR_MAX]. *)
Theorem commit_address_bounds (ts_can : thingset_can) (address : Z) :
  is_addr address ->
  (THINGSET_CAN_ADDR_MAX = 0xFD
   /\ THINGSET_CAN_ADDR_ANONYMOUS = 0xFE
   /\ THINGSET_CAN_ADDR_BROADCAST = 0xFF)
  /\ commit ts_can THINGSET_CAN_ADDR_ANONYMOUS = None
  /\ commit ts_can THINGSET_CAN_ADDR_BROADCAST = None
  /\ (forall ts_can', commit ts_can address = Some ts_can' ->
      node_addr ts_can' = address /\ 0 <= node_addr ts_can' <= THINGSET_CAN_ADDR_MAX)
  /\ (0 <= address <= THINGSET_CAN_ADDR_MAX <-> commit ts_can address <> None).
Proof.
  unfold is_addr, commit, THINGSET_CAN_ADDR_MAX, THINGSET_CAN_ADDR_ANONYMOUS,
    THINGSET_CAN_ADDR_BROADCAST.
  intros Haddr.
  split; [repeat split|]. split; [reflexivity|]. split; [reflexivity|].
  destruct (Z.eqb_spec address 254) as [Hanon | Hanon];
    destruct (Z.eqb_spec address 255) as [Hbroad | Hbroad]; cbn [orb].
  all: split; [intros ts_can' Hsome; try discriminate Hsome;
               injection Hsome as <-; cbn [node_addr]; lia
              | split; [intros Hok; try lia; discriminate | intros Hok; try lia; congruence]].
Qed.

Lemma commit_address_bounds_witness :
  is_addr 0x2A
  /\ commit (mk_thingset_can 0 THINGSET_CAN_ADDR_ANONYMOUS false) 0x2A
     = Some (mk_thingset_can 0 0x2A false)
  /\ commit (mk_thingset_can 0 THINGSET_CAN_ADDR_ANONYMOUS false) 0x2A <> None.
Proof.
  assert (Haddr : is_addr 0x2A) by (unfold is_addr; lia).
  destruct (commit_address_bounds (mk_thingset_can 0 THINGSET_CAN_ADDR_ANONYMOUS false)
              0x2A Haddr) as (_ & _ & _ & _ & Hiff).
  split; [exact Haddr|]. split; [reflexivity|].
  apply Hiff. unfold THINGSET_CAN_ADDR_MAX. lia.
Defined.

(** ** Priorities and arbitration *)

(** On 29-bit identifiers the priority field decides the order: the frame
    with the smaller priority value has the smaller identifier. *)
Lemma prio_decides_order (a b : Z) :
  is_can_id a -> is_can_id b ->
  THINGSET_CAN_PRIO_GET a < THINGSET_CAN_PRIO_GET b -> a < b.
Proof.
  intros Ha Hb. rewrite !PRIO_GET_can_id by assumption. intros Hlt.
  pose proof (Z.mul_succ_div_gt a (2 ^ 26) ltac:(lia)) as Hup.
  pose proof (Z.mul_div_le b (2 ^ 26) ltac:(lia)) as Hdown.
  nia.
Qed.

(** C7: the priority constants are ordered for arbitration, where the
    lower value wins: network management (4) is below channel (6) and
    report-low (7) and above control-emergency (0) and control-high (2).
    Hence a network-management frame has a smaller identifier than any
    channel or report-low frame, and a larger one than any emergency or
    high-priority control frame. *)
Theorem priority_arbitration_order (net other : Z) :
  is_can_id net -> is_can_id other ->
  THINGSET_CAN_PRIO_GET net = THINGSET_CAN_PRIO_GET THINGSET_CAN_PRIO_NETWORK_MGMT ->
  (THINGSET_CAN_PRIO_NETWORK_MGMT < THINGSET_CAN_PRIO_CHANNEL
   /\ THINGSET_CAN_PRIO_NETWORK_MGMT < THINGSET_CAN_PRIO_REPORT_LOW
   /\ THINGSET_CAN_PRIO_CONTROL_EMERGENCY < THINGSET_CAN_PRIO_NETWORK_MGMT
   /\ THINGSET_CAN_PRIO_CONTROL_HIGH < THINGSET_CAN_PRIO_NETWORK_MGMT)
  /\ (THINGSET_CAN_PRIO_GET THINGSET_CAN_PRIO_CONTROL_EMERGENCY = 0
      /\ THINGSET_CAN_PRIO_GET THINGSET_CAN_PRIO_CONTROL_HIGH = 2
      /\ THINGSET_CAN_PRIO_GET THINGSET_CAN_PRIO_NETWORK_MGMT = 4
      /\ THINGSET_CAN_PRIO_GET THINGSET_CAN_PRIO_CHANNEL = 6
      /\ THINGSET_CAN_PRIO_GET THINGSET_CAN_PRIO_REPORT_LOW = 7)
  /\ (THINGSET_CAN_PRIO_GET other = THINGSET_CAN_PRIO_GET THINGSET_CAN_PRIO_CHANNEL
      \/ THINGSET_CAN_PRIO_GET other = THINGSET_CAN_PRIO_GET THINGSET_CAN_PRIO_REPORT_LOW ->
      net < other)
  /\ (THINGSET_CAN_PRIO_GET other = THINGSET_CAN_PRIO_GET THINGSET_CAN_PRIO_CONTROL_EMERGENCY
      \/ THINGSET_CAN_PRIO_GET other = THINGSET_CAN_PRIO_GET THINGSET_CAN_PRIO_CONTROL_HIGH ->
      other < net).
Proof.
  intros Hnet Hother Hprio.
  change (THINGSET_CAN_PRIO_GET THINGSET_CAN_PRIO_NETWORK_MGMT) with 4 in *.
  change (THINGSET_CAN_PRIO_GET THINGSET_CAN_PRIO_CHANNEL) with 6.
  change (THINGSET_CAN_PRIO_GET THINGSET_CAN_PRIO_REPORT_LOW) with 7.
  change (THINGSET_CAN_PRIO_GET THINGSET_CAN_PRIO_CONTROL_EMERGENCY) with 0.
  change (THINGSET_CAN_PRIO_GET THINGSET_CAN_PRIO_CONTROL_HIGH) with 2.
  split; [repeat split|]. split; [repeat split|].
  split; intros Hcase; apply prio_decides_order; try assumption; lia.
Qed.

Lemma priority_arbitration_order_witness :
  network_id 4 0xDA 0xFF 0xFE < channel_id 6 0xDA 0x05 0x01
  /\ report_id 2 0x1234 0x01 < network_id 4 0xDA 0xFF 0xFE.
Proof.
  assert (Hnet : is_can_id (network_id 4 0xDA 0xFF 0xFE))
    by (vm_compute; split; [discriminate | reflexivity]).
  assert (Hchan : is_can_id (channel_id 6 0xDA 0x05 0x01))
    by (vm_compute; split; [discriminate | reflexivity]).
  assert (Hctrl : is_can_id (report_id 2 0x1234 0x01))
    by (vm_compute; split; [discriminate | reflexivity]).
  split.
  - apply (priority_arbitration_order _ _ Hnet Hchan eq_refl). left. reflexivity.
  - apply (priority_arbitration_order _ _ Hnet Hctrl eq_refl). right. reflexivity.
Defined.

(** ** Truncation by the masked setters *)

(** C8: for every 32-bit value [v] the setters for source, target, bus ID
    and data ID truncate: the getter reads back [v mod 2^8] (for the data
    ID [v mod 2^16]), the setter's result has no bit outside the field's
    mask, and it is an ordinary 32-bit value, whatever the width of [v]. *)
Theorem setters_truncate (v : Z) :
  Uint32.in_range v ->
  (THINGSET_CAN_SOURCE_GET (THINGSET_CAN_SOURCE_SET v) = v mod 2 ^ 8
   /\ THINGSET_CAN_TARGET_GET (THINGSET_CAN_TARGET_SET v) = v mod 2 ^ 8
   /\ THINGSET_CAN_BUS_ID_GET (THINGSET_CAN_BUS_ID_SET v) = v mod 2 ^ 8
   /\ THINGSET_CAN_DATA_ID_GET (THINGSET_CAN_DATA_ID_SET v) = v mod 2 ^ 16)
  /\ (Z.land (THINGSET_CAN_SOURCE_SET v) THINGSET_CAN_SOURCE_MASK = THINGSET_CAN_SOURCE_SET v
      /\ Z.land (THINGSET_CAN_TARGET_SET v) THINGSET_CAN_TARGET_MASK = THINGSET_CAN_TARGET_SET v
      /\ Z.land (THINGSET_CAN_BUS_ID_SET v) THINGSET_CAN_BUS_ID_MASK = THINGSET_CAN_BUS_ID_SET v
      /\ Z.land (THINGSET_CAN_DATA_ID_SET v) THINGSET_CAN_DATA_ID_MASK
         = THINGSET_CAN_DATA_ID_SET v)
  /\ (Uint32.in_range (THINGSET_CAN_SOURCE_SET v)
      /\ Uint32.in_range (THINGSET_CAN_TARGET_SET v)
      /\ Uint32.in_range (THINGSET_CAN_BUS_ID_SET v)
      /\ Uint32.in_range (THINGSET_CAN_DATA_ID_SET v)).
Proof.
  intros _. split; [|split].
  - autorewrite with can_fields.
    rewrite !shiftr_shiftl_same, !mod_pow2_idem by lia. repeat split.
  - rewrite SOURCE_SET_value, TARGET_SET_value, BUS_ID_SET_value, DATA_ID_SET_value.
    split; [|split; [|split]].
    + exact (land_placed_mask v 0 8 ltac:(lia) ltac:(lia)).
    + exact (land_placed_mask v 8 8 ltac:(lia) ltac:(lia)).
    + exact (land_placed_mask v 16 8 ltac:(lia) ltac:(lia)).
    + exact (land_placed_mask v 8 16 ltac:(lia) ltac:(lia)).
  - rewrite SOURCE_SET_value, TARGET_SET_value, BUS_ID_SET_value, DATA_ID_SET_value.
    unfold_uint32.
    split; [|split; [|split]]; apply placed_below; lia.
Qed.

Lemma setters_truncate_witness :
  THINGSET_CAN_SOURCE_GET (THINGSET_CAN_SOURCE_SET 0x12345678) = 0x78
  /\ THINGSET_CAN_TARGET_GET (THINGSET_CAN_TARGET_SET 0x12345678) = 0x78
  /\ THINGSET_CAN_BUS_ID_GET (THINGSET_CAN_BUS_ID_SET 0x12345678) = 0x78
  /\ THINGSET_CAN_DATA_ID_GET (THINGSET_CAN_DATA_ID_SET 0x12345678) = 0x5678.
Proof.
  assert (Hv : Uint32.in_range 0x12345678)
    by (unfold Uint32.in_range, Uint32.modulus, Uint32.width; lia).
  exact (proj1 (setters_truncate 0x12345678 Hv)).
Defined.

(** ** The unmasked priority setter *)

(** C9: [THINGSET_CAN_PRIO_SET] has no mask.  For 8 <= p < 2^6 its result
    has a bit set above bit 28, so it differs from its own low 29 bits and
    lies outside the priority mask; for p < 8 it stays within bits 28..26. *)
Theorem PRIO_SET_no_mask (p : Z) :
  (8 <= p < 2 ^ 6 ->
   THINGSET_CAN_PRIO_SET p <> Z.land (THINGSET_CAN_PRIO_SET p) 0x1FFFFFFF
   /\ (exists n, 28 < n /\ Z.testbit (THINGSET_CAN_PRIO_SET p) n = true)
   /\ Z.land (THINGSET_CAN_PRIO_SET p) THINGSET_CAN_PRIO_MASK <> THINGSET_CAN_PRIO_SET p
   /\ ~ is_can_id (THINGSET_CAN_PRIO_SET p))
  /\ (0 <= p < 8 ->
      Z.land (THINGSET_CAN_PRIO_SET p) THINGSET_CAN_PRIO_MASK = THINGSET_CAN_PRIO_SET p
      /\ is_can_id (THINGSET_CAN_PRIO_SET p)
      /\ forall n, Z.testbit (THINGSET_CAN_PRIO_SET p) n = true -> 26 <= n <= 28).
Proof.
  split; intros Hp.
  - assert (Hbig : 2 ^ 29 <= THINGSET_CAN_PRIO_SET p) by (rewrite PRIO_SET_small; lia).
    assert (Hlow : forall m, 0 <= Z.land (THINGSET_CAN_PRIO_SET p) m mod 2 ^ 29 < 2 ^ 29)
      by (intros m; apply Z.mod_pos_bound; lia).
    change 0x1FFFFFFF with (Z.ones 29).
    change THINGSET_CAN_PRIO_MASK with (Z.land (Z.shiftl (Z.ones 3) 26) (Z.ones 29)).
    rewrite Z.land_assoc, !Z.land_ones by lia.
    pose proof (Z.mod_pos_bound (THINGSET_CAN_PRIO_SET p) (2 ^ 29) ltac:(lia)) as Hmod.
    specialize (Hlow (Z.shiftl (Z.ones 3) 26)).
    split; [lia|]. split; [|split; [lia | unfold is_can_id; lia]].
    exists (Z.log2 (THINGSET_CAN_PRIO_SET p)). split.
    + pose proof (Z.log2_le_mono _ _ Hbig) as Hlog.
      rewrite Z.log2_pow2 in Hlog by lia. lia.
    + apply Z.bit_log2. lia.
  - assert (Hval : THINGSET_CAN_PRIO_SET p = Z.shiftl (p mod 2 ^ 3) 26).
    { rewrite PRIO_SET_value, !Z.mod_small by lia. reflexivity. }
    split; [|split].
    + rewrite Hval. exact (land_placed_mask p 26 3 ltac:(lia) ltac:(lia)).
    + unfold is_can_id. rewrite PRIO_SET_small by lia. lia.
    + intros n Hbit. rewrite Hval in Hbit.
      destruct (Z.ltb_spec n 0) as [Hneg | Hnn];
        [rewrite Z.testbit_neg_r in Hbit by lia; discriminate|].
      rewrite testbit_placed in Hbit by lia.
      destruct (Z.leb_spec 26 n), (Z.ltb_spec n (26 + 3)); cbn in Hbit;
        try discriminate; lia.
Qed.

Lemma PRIO_SET_no_mask_witness :
  THINGSET_CAN_PRIO_SET 8 <> Z.land (THINGSET_CAN_PRIO_SET 8) 0x1FFFFFFF
  /\ Z.land (THINGSET_CAN_PRIO_SET 7) THINGSET_CAN_PRIO_MASK = THINGSET_CAN_PRIO_SET 7.
Proof.
  split.
  - apply (proj1 (PRIO_SET_no_mask 8)). lia.
  - apply (proj2 (PRIO_SET_no_mask 7)). lia.
Defined.

(** ** The field masks *)

(** C10: the five field masks (priority, type, bus ID, target, source) are
    pairwise disjoint and their OR is 0x1FFFFFFF: each of the 29 bits of an
    identifier lies in exactly one mask, and OR-ing a value cut to one
    mask into a word leaves the bits under every other mask as they were. *)
Theorem field_masks_partition (id x : Z) :
  pairwise_disjoint field_masks = true
  /\ fold_right Z.lor 0 field_masks = 0x1FFFFFFF
  /\ forallb (fun i => Nat.eqb (masks_with_bit field_masks i) 1) bit_positions = true
  /\ (THINGSET_CAN_PRIO_MASK = Z.shiftl (Z.ones 3) 26
      /\ THINGSET_CAN_TYPE_MASK = Z.shiftl (Z.ones 2) 24
      /\ THINGSET_CAN_BUS_ID_MASK = Z.shiftl (Z.ones 8) 16
      /\ THINGSET_CAN_TARGET_MASK = Z.shiftl (Z.ones 8) 8
      /\ THINGSET_CAN_SOURCE_MASK = Z.shiftl (Z.ones 8) 0)
  /\ THINGSET_CAN_DATA_ID_MASK = Z.lor THINGSET_CAN_BUS_ID_MASK THINGSET_CAN_TARGET_MASK
  /\ Forall (fun m =>
       Forall (fun m' => m = m' \/ Z.land (Z.lor id (Z.land x m)) m' = Z.land id m')
              field_masks)
       field_masks.
Proof.
  do 5 (split; [repeat split; reflexivity|]).
  unfold field_masks.
  repeat first [apply Forall_nil | apply Forall_cons].
  all: first [left; reflexivity | right; apply lor_keeps_disjoint; reflexivity].
Qed.

(** * Further properties of the macros *)

(** ** Getters on arbitrary words *)

(** Decide index comparisons one at a time, dropping the cases that the
    comparisons made so far exclude. *)
Ltac split_ranges :=
  repeat match goal with
    | |- context [?a <? ?b] => destruct (Z.ltb_spec a b); try lia
    | |- context [?a <=? ?b] => destruct (Z.leb_spec a b); try lia
    end;
  cbn [andb orb]; rewrite ?andb_true_r, ?andb_false_r, ?orb_false_r;
  try reflexivity; try (f_equal; lia).

(** The bits of a field that was read and put back in place. *)
Lemma testbit_field (id pos w n : Z) :
  0 <= pos -> 0 <= w -> 0 <= n ->
  Z.testbit (Z.shiftl (Z.shiftr id pos mod 2 ^ w) pos) n
  = (pos <=? n) && (n <? pos + w) && Z.testbit id n.
Proof.
  intros Hpos Hw Hn. rewrite Z.shiftl_spec by lia.
  destruct (Z.leb_spec pos n) as [Hge | Hlt].
  - rewrite testbit_slice by lia. replace (n - pos + pos) with n by lia.
    replace (n - pos <? w) with (n <? pos + w); [reflexivity|].
    destruct (Z.ltb_spec n (pos + w)), (Z.ltb_spec (n - pos) w); lia || reflexivity.
  - rewrite Z.testbit_neg_r by lia. reflexivity.
Qed.

(** X1: whatever word a getter is applied to, its result fits the field:
    a priority is below 8, a source, target or bus ID (random byte) below
    2^8, a data ID below 2^16; and a source or target address read from an
    identifier is an assignable address, the anonymous one or the
    broadcast one. *)
Theorem getters_in_field_range (id : Z) :
  (0 <= THINGSET_CAN_PRIO_GET id < 2 ^ 3
   /\ 0 <= THINGSET_CAN_SOURCE_GET id < 2 ^ 8
   /\ 0 <= THINGSET_CAN_TARGET_GET id < 2 ^ 8
   /\ 0 <= THINGSET_CAN_BUS_ID_GET id < 2 ^ 8
   /\ 0 <= THINGSET_CAN_RAND_GET id < 2 ^ 8
   /\ 0 <= THINGSET_CAN_DATA_ID_GET id < 2 ^ 16)
  /\ (0 <= THINGSET_CAN_SOURCE_GET id <= THINGSET_CAN_ADDR_MAX
      \/ THINGSET_CAN_SOURCE_GET id = THINGSET_CAN_ADDR_ANONYMOUS
      \/ THINGSET_CAN_SOURCE_GET id = THINGSET_CAN_ADDR_BROADCAST)
  /\ (0 <= THINGSET_CAN_TARGET_GET id <= THINGSET_CAN_ADDR_MAX
      \/ THINGSET_CAN_TARGET_GET id = THINGSET_CAN_ADDR_ANONYMOUS
      \/ THINGSET_CAN_TARGET_GET id = THINGSET_CAN_ADDR_BROADCAST).
Proof.
  unfold THINGSET_CAN_RAND_GET, THINGSET_CAN_ADDR_MAX, THINGSET_CAN_ADDR_ANONYMOUS,
    THINGSET_CAN_ADDR_BROADCAST.
  autorewrite with can_fields.
  pose proof (Z.mod_pos_bound (Z.shiftr id 26) (2 ^ 3) ltac:(lia)).
  pose proof (Z.mod_pos_bound (Z.shiftr id 0) (2 ^ 8) ltac:(lia)).
  pose proof (Z.mod_pos_bound (Z.shiftr id 8) (2 ^ 8) ltac:(lia)).
  pose proof (Z.mod_pos_bound (Z.shiftr id 16) (2 ^ 8) ltac:(lia)).
  pose proof (Z.mod_pos_bound (Z.shiftr id 8) (2 ^ 16) ltac:(lia)).
  lia.
Qed.

(** X2: the data ID of a report frame lies over the bus ID and target
    fields of a channel frame: the data ID read from any word is the bus ID
    byte followed by the target byte, and setting a data ID is setting its
    high byte as bus ID and its low byte as target. *)
Theorem data_id_is_bus_id_and_target (id d : Z) :
  THINGSET_CAN_DATA_ID_GET id
  = THINGSET_CAN_BUS_ID_GET id * 2 ^ 8 + THINGSET_CAN_TARGET_GET id
  /\ THINGSET_CAN_DATA_ID_SET d
     = Z.lor (THINGSET_CAN_BUS_ID_SET (Z.shiftr d 8)) (THINGSET_CAN_TARGET_SET d).
Proof.
  autorewrite with can_fields. split.
  - replace 16 with (8 + 8) at 2 by lia.
    rewrite <- Z.shiftr_shiftr by lia.
    rewrite (Z.shiftr_div_pow2 (Z.shiftr id 8) 8) by lia.
    replace (2 ^ 16) with (2 ^ 8 * 2 ^ 8) by lia.
    rewrite Z.rem_mul_r by lia. lia.
  - apply Z.bits_inj'; intros n Hn.
    rewrite Z.lor_spec, !testbit_placed by lia.
    destruct (Z.leb_spec 16 n) as [Hhigh | Hlow].
    + rewrite Z.shiftr_spec by lia. replace (n - 16 + 8) with (n - 8) by lia.
      split_ranges.
    + split_ranges.
Qed.

(** X3: the priority setter, though it has no mask, is read back modulo 8
    for every argument; it keeps six bits of its argument, its result is a
    32-bit word, and masking the result gives the setter's value at the
    argument's low three bits. *)
Theorem PRIO_SET_any_argument (p : Z) :
  THINGSET_CAN_PRIO_GET (THINGSET_CAN_PRIO_SET p) = p mod 2 ^ 3
  /\ THINGSET_CAN_PRIO_SET p = THINGSET_CAN_PRIO_SET (p mod 2 ^ 6)
  /\ Uint32.in_range (THINGSET_CAN_PRIO_SET p)
  /\ Z.land (THINGSET_CAN_PRIO_SET p) THINGSET_CAN_PRIO_MASK
     = THINGSET_CAN_PRIO_SET (p mod 2 ^ 3).
Proof.
  autorewrite with can_fields. split; [|split; [|split]].
  - apply slice_placed_same; lia.
  - rewrite mod_pow2_idem by lia. reflexivity.
  - unfold_uint32. apply placed_below; lia.
  - change THINGSET_CAN_PRIO_MASK with (Z.shiftl (Z.ones 3) 26).
    rewrite <- Z.shiftl_land, Z.land_ones by lia.
    f_equal. bitwise.
Qed.

(** ** Taking an identifier apart and putting it together again *)

(** X4: a 29-bit identifier is the OR of its five fields put back by the
    setters (the type bits are kept by the type mask, for which the header
    has no setter); with the data ID in place of bus ID and target
    likewise. *)
Theorem set_of_get_rebuilds_id (id : Z) :
  is_can_id id ->
  id = Z.lor (Z.lor (Z.lor (Z.lor (THINGSET_CAN_PRIO_SET (THINGSET_CAN_PRIO_GET id))
                                  (Z.land id THINGSET_CAN_TYPE_MASK))
                           (THINGSET_CAN_BUS_ID_SET (THINGSET_CAN_BUS_ID_GET id)))
                    (THINGSET_CAN_TARGET_SET (THINGSET_CAN_TARGET_GET id)))
             (THINGSET_CAN_SOURCE_SET (THINGSET_CAN_SOURCE_GET id))
  /\ id = Z.lor (Z.lor (Z.lor (THINGSET_CAN_PRIO_SET (THINGSET_CAN_PRIO_GET id))
                              (Z.land id THINGSET_CAN_TYPE_MASK))
                       (THINGSET_CAN_DATA_ID_SET (THINGSET_CAN_DATA_ID_GET id)))
                (THINGSET_CAN_SOURCE_SET (THINGSET_CAN_SOURCE_GET id)).
Proof.
  unfold is_can_id. intros Hid.
  autorewrite with can_fields. rewrite TYPE_MASK_value.
  rewrite !mod_pow2_idem by lia.
  rewrite (Z.mod_small (Z.shiftr id 26 mod 2 ^ 3) (2 ^ 6))
    by (pose proof (Z.mod_pos_bound (Z.shiftr id 26) (2 ^ 3) ltac:(lia)); lia).
  split; apply Z.bits_inj'; intros n Hn;
    rewrite !Z.lor_spec, !testbit_field by lia;
    (destruct (Z.ltb_spec n 29) as [Hlow | Hhigh];
     [|rewrite (testbit_small id 29 n) by lia]);
    split_ranges.
Qed.

Lemma set_of_get_rebuilds_id_witness :
  0x18DA0501
  = Z.lor (Z.lor (Z.lor (Z.lor (THINGSET_CAN_PRIO_SET (THINGSET_CAN_PRIO_GET 0x18DA0501))
                               (Z.land 0x18DA0501 THINGSET_CAN_TYPE_MASK))
                        (THINGSET_CAN_BUS_ID_SET (THINGSET_CAN_BUS_ID_GET 0x18DA0501)))
                 (THINGSET_CAN_TARGET_SET (THINGSET_CAN_TARGET_GET 0x18DA0501)))
          (THINGSET_CAN_SOURCE_SET (THINGSET_CAN_SOURCE_GET 0x18DA0501)).
Proof.
  assert (Hid : is_can_id 0x18DA0501) by (unfold is_can_id; lia).
  exact (proj1 (set_of_get_rebuilds_id 0x18DA0501 Hid)).
Defined.

(** ** Building an identifier step by step *)

(** Read a getter on an OR with a setter's result. *)
Ltac get_of_lor :=
  unfold THINGSET_CAN_RAND_SET, THINGSET_CAN_RAND_GET;
  autorewrite with can_fields; rewrite ?TYPE_MASK_value;
  rewrite !slice_lor by lia;
  rewrite ?slice_placed_same by lia;
  rewrite ?slice_placed_apart by lia;
  rewrite ?Z.lor_0_r;
  reflexivity.

(** X5: OR-ing the result of a setter into a word changes no other field:
    the getters of the other fields and the type bits read what they read
    before.  This holds for the priority setter too, for every argument. *)
Theorem setters_keep_other_fields (id v : Z) :
  (THINGSET_CAN_TARGET_GET (Z.lor id (THINGSET_CAN_SOURCE_SET v)) = THINGSET_CAN_TARGET_GET id
   /\ THINGSET_CAN_BUS_ID_GET (Z.lor id (THINGSET_CAN_SOURCE_SET v)) = THINGSET_CAN_BUS_ID_GET id
   /\ THINGSET_CAN_DATA_ID_GET (Z.lor id (THINGSET_CAN_SOURCE_SET v))
      = THINGSET_CAN_DATA_ID_GET id
   /\ THINGSET_CAN_PRIO_GET (Z.lor id (THINGSET_CAN_SOURCE_SET v)) = THINGSET_CAN_PRIO_GET id
   /\ Z.land (Z.lor id (THINGSET_CAN_SOURCE_SET v)) THINGSET_CAN_TYPE_MASK
      = Z.land id THINGSET_CAN_TYPE_MASK)
  /\ (THINGSET_CAN_SOURCE_GET (Z.lor id (THINGSET_CAN_TARGET_SET v)) = THINGSET_CAN_SOURCE_GET id
      /\ THINGSET_CAN_BUS_ID_GET (Z.lor id (THINGSET_CAN_TARGET_SET v))
         = THINGSET_CAN_BUS_ID_GET id
      /\ THINGSET_CAN_PRIO_GET (Z.lor id (THINGSET_CAN_TARGET_SET v)) = THINGSET_CAN_PRIO_GET id
      /\ Z.land (Z.lor id (THINGSET_CAN_TARGET_SET v)) THINGSET_CAN_TYPE_MASK
         = Z.land id THINGSET_CAN_TYPE_MASK)
  /\ (THINGSET_CAN_SOURCE_GET (Z.lor id (THINGSET_CAN_BUS_ID_SET v)) = THINGSET_CAN_SOURCE_GET id
      /\ THINGSET_CAN_TARGET_GET (Z.lor id (THINGSET_CAN_BUS_ID_SET v))
         = THINGSET_CAN_TARGET_GET id
      /\ THINGSET_CAN_PRIO_GET (Z.lor id (THINGSET_CAN_BUS_ID_SET v)) = THINGSET_CAN_PRIO_GET id
      /\ Z.land (Z.lor id (THINGSET_CAN_BUS_ID_SET v)) THINGSET_CAN_TYPE_MASK
         = Z.land id THINGSET_CAN_TYPE_MASK)
  /\ (THINGSET_CAN_SOURCE_GET (Z.lor id (THINGSET_CAN_DATA_ID_SET v))
      = THINGSET_CAN_SOURCE_GET id
      /\ THINGSET_CAN_PRIO_GET (Z.lor id (THINGSET_CAN_DATA_ID_SET v))
         = THINGSET_CAN_PRIO_GET id
      /\ Z.land (Z.lor id (THINGSET_CAN_DATA_ID_SET v)) THINGSET_CAN_TYPE_MASK
         = Z.land id THINGSET_CAN_TYPE_MASK)
  /\ (THINGSET_CAN_SOURCE_GET (Z.lor id (THINGSET_CAN_PRIO_SET v)) = THINGSET_CAN_SOURCE_GET id
      /\ THINGSET_CAN_TARGET_GET (Z.lor id (THINGSET_CAN_PRIO_SET v))
         = THINGSET_CAN_TARGET_GET id
      /\ THINGSET_CAN_BUS_ID_GET (Z.lor id (THINGSET_CAN_PRIO_SET v))
         = THINGSET_CAN_BUS_ID_GET id
      /\ THINGSET_CAN_DATA_ID_GET (Z.lor id (THINGSET_CAN_PRIO_SET v))
         = THINGSET_CAN_DATA_ID_GET id
      /\ Z.land (Z.lor id (THINGSET_CAN_PRIO_SET v)) THINGSET_CAN_TYPE_MASK
         = Z.land id THINGSET_CAN_TYPE_MASK).
Proof.
  repeat split; get_of_lor.
Qed.

(** X6: a setter does not replace what is in its field, it adds to it:
    the getter of the same field reads the OR of what was there and the
    new value cut to the field; only on an empty field does it read the
    new value. *)
Theorem setters_merge_own_field (id v : Z) :
  THINGSET_CAN_SOURCE_GET (Z.lor id (THINGSET_CAN_SOURCE_SET v))
  = Z.lor (THINGSET_CAN_SOURCE_GET id) (v mod 2 ^ 8)
  /\ THINGSET_CAN_TARGET_GET (Z.lor id (THINGSET_CAN_TARGET_SET v))
     = Z.lor (THINGSET_CAN_TARGET_GET id) (v mod 2 ^ 8)
  /\ THINGSET_CAN_BUS_ID_GET (Z.lor id (THINGSET_CAN_BUS_ID_SET v))
     = Z.lor (THINGSET_CAN_BUS_ID_GET id) (v mod 2 ^ 8)
  /\ THINGSET_CAN_DATA_ID_GET (Z.lor id (THINGSET_CAN_DATA_ID_SET v))
     = Z.lor (THINGSET_CAN_DATA_ID_GET id) (v mod 2 ^ 16)
  /\ THINGSET_CAN_PRIO_GET (Z.lor id (THINGSET_CAN_PRIO_SET v))
     = Z.lor (THINGSET_CAN_PRIO_GET id) (v mod 2 ^ 3)
  /\ THINGSET_CAN_SOURCE_GET (Z.lor 0x18DA05FE (THINGSET_CAN_SOURCE_SET 0x01)) = 0xFF.
Proof.
  repeat split; try get_of_lor.
Qed.

(** ** Classification and the fields it does not read *)

(** The bits the predicates read, priority and type, after a setter of an
    address or data field. *)
Lemma setters_keep_class_bits (id v : Z) :
  (THINGSET_CAN_PRIO_GET (Z.lor id (THINGSET_CAN_SOURCE_SET v)) = THINGSET_CAN_PRIO_GET id
   /\ Z.land (Z.lor id (THINGSET_CAN_SOURCE_SET v)) THINGSET_CAN_TYPE_MASK
      = Z.land id THINGSET_CAN_TYPE_MASK)
  /\ (THINGSET_CAN_PRIO_GET (Z.lor id (THINGSET_CAN_TARGET_SET v)) = THINGSET_CAN_PRIO_GET id
      /\ Z.land (Z.lor id (THINGSET_CAN_TARGET_SET v)) THINGSET_CAN_TYPE_MASK
         = Z.land id THINGSET_CAN_TYPE_MASK)
  /\ (THINGSET_CAN_PRIO_GET (Z.lor id (THINGSET_CAN_BUS_ID_SET v)) = THINGSET_CAN_PRIO_GET id
      /\ Z.land (Z.lor id (THINGSET_CAN_BUS_ID_SET v)) THINGSET_CAN_TYPE_MASK
         = Z.land id THINGSET_CAN_TYPE_MASK)
  /\ (THINGSET_CAN_PRIO_GET (Z.lor id (THINGSET_CAN_DATA_ID_SET v)) = THINGSET_CAN_PRIO_GET id
      /\ Z.land (Z.lor id (THINGSET_CAN_DATA_ID_SET v)) THINGSET_CAN_TYPE_MASK
         = Z.land id THINGSET_CAN_TYPE_MASK).
Proof.
  repeat split; get_of_lor.
Qed.

(** X7: the class of an identifier does not depend on its address and
    data fields: OR-ing the result of the source, target, bus ID, random
    byte or data ID setter into a word leaves the three predicates as they
    were. *)
Theorem class_ignores_low_fields (id v : Z) :
  Forall (fun set =>
            THINGSET_CAN_CHANNEL (Z.lor id (set v)) = THINGSET_CAN_CHANNEL id
            /\ THINGSET_CAN_REPORT (Z.lor id (set v)) = THINGSET_CAN_REPORT id
            /\ THINGSET_CAN_CONTROL (Z.lor id (set v)) = THINGSET_CAN_CONTROL id)
         [THINGSET_CAN_SOURCE_SET; THINGSET_CAN_TARGET_SET; THINGSET_CAN_BUS_ID_SET;
          THINGSET_CAN_RAND_SET; THINGSET_CAN_DATA_ID_SET].
Proof.
  destruct (setters_keep_class_bits id v) as (Hs & Ht & Hb & Hd).
  unfold THINGSET_CAN_CHANNEL, THINGSET_CAN_REPORT, THINGSET_CAN_CONTROL,
    THINGSET_CAN_RAND_SET.
  repeat first [apply Forall_nil | apply Forall_cons].
  - destruct Hs as (-> & ->). repeat split.
  - destruct Ht as (-> & ->). repeat split.
  - destruct Hb as (-> & ->). repeat split.
  - destruct Hb as (-> & ->). repeat split.
  - destruct Hd as (-> & ->). repeat split.
Qed.

(** ** The three layouts *)

(** X8: the three layouts of the header never meet, whatever is put in
    their fields: a channel identifier satisfies [THINGSET_CAN_CHANNEL] and
    neither report predicate, a report/control identifier satisfies exactly
    one of [THINGSET_CAN_REPORT] and [THINGSET_CAN_CONTROL] and not
    [THINGSET_CAN_CHANNEL], a network-management identifier satisfies none
    of the three; so no two layouts yield the same identifier. *)
Theorem layouts_never_collide (p b t s d p' b' t' s' : Z) :
  (THINGSET_CAN_CHANNEL (channel_id p b t s) = true
   /\ THINGSET_CAN_REPORT (channel_id p b t s) = false
   /\ THINGSET_CAN_CONTROL (channel_id p b t s) = false)
  /\ (THINGSET_CAN_CHANNEL (report_id p d s) = false
      /\ xorb (THINGSET_CAN_REPORT (report_id p d s))
              (THINGSET_CAN_CONTROL (report_id p d s)) = true)
  /\ (THINGSET_CAN_CHANNEL (network_id p b t s) = false
      /\ THINGSET_CAN_REPORT (network_id p b t s) = false
      /\ THINGSET_CAN_CONTROL (network_id p b t s) = false)
  /\ channel_id p b t s <> report_id p' d s'
  /\ channel_id p b t s <> network_id p' b' t' s'
  /\ report_id p d s <> network_id p' b' t' s'.
Proof.
  destruct (layout_type_bits p b t s d) as (Hchan & Hrep & Hnet).
  destruct (layout_type_bits p' b' t' s' d) as (_ & Hrep' & Hnet').
  split; [|split; [|split; [|split; [|split]]]].
  - classify (channel_id p b t s) Hchan; repeat split; reflexivity.
  - classify (report_id p d s) Hrep; repeat split; reflexivity.
  - classify (network_id p b t s) Hnet; repeat split; reflexivity.
  - intros Heq. rewrite Heq in Hchan. rewrite Hchan in Hrep'. discriminate Hrep'.
  - intros Heq. rewrite Heq in Hchan. rewrite Hchan in Hnet'. discriminate Hnet'.
  - intros Heq. rewrite Heq in Hrep. rewrite Hrep in Hnet'. discriminate Hnet'.
Qed.

(** ** The priority constants and the predicates *)

(** The priority constants are the priority setter at 0, 2, 3, 4, 5, 6, 7. *)
Lemma prio_constants_as_set :
  THINGSET_CAN_PRIO_CONTROL_EMERGENCY = THINGSET_CAN_PRIO_SET 0
  /\ THINGSET_CAN_PRIO_CONTROL_HIGH = THINGSET_CAN_PRIO_SET 2
  /\ THINGSET_CAN_PRIO_CONTROL_LOW = THINGSET_CAN_PRIO_SET 3
  /\ THINGSET_CAN_PRIO_NETWORK_MGMT = THINGSET_CAN_PRIO_SET 4
  /\ THINGSET_CAN_PRIO_REPORT_HIGH = THINGSET_CAN_PRIO_SET 5
  /\ THINGSET_CAN_PRIO_CHANNEL = THINGSET_CAN_PRIO_SET 6
  /\ THINGSET_CAN_PRIO_REPORT_LOW = THINGSET_CAN_PRIO_SET 7.
Proof. repeat split; reflexivity. Qed.

(** X9: with the report type tag, any data ID and any source, the three
    control priority constants give an identifier that satisfies
    [THINGSET_CAN_CONTROL] and not [THINGSET_CAN_REPORT]; the two report
    priority constants give one that satisfies [THINGSET_CAN_REPORT] and
    not [THINGSET_CAN_CONTROL], and so do the network-management and the
    channel priority constant, which [THINGSET_CAN_REPORT] does not tell
    from report priorities. *)
Theorem prio_constants_classes (data_id source : Z) :
  Forall (fun prio =>
            let id := Z.lor (Z.lor (Z.lor prio THINGSET_CAN_TYPE_REPORT)
                                   (THINGSET_CAN_DATA_ID_SET data_id))
                            (THINGSET_CAN_SOURCE_SET source) in
            THINGSET_CAN_CONTROL id = true /\ THINGSET_CAN_REPORT id = false)
         [THINGSET_CAN_PRIO_CONTROL_EMERGENCY; THINGSET_CAN_PRIO_CONTROL_HIGH;
          THINGSET_CAN_PRIO_CONTROL_LOW]
  /\ Forall (fun prio =>
               let id := Z.lor (Z.lor (Z.lor prio THINGSET_CAN_TYPE_REPORT)
                                      (THINGSET_CAN_DATA_ID_SET data_id))
                               (THINGSET_CAN_SOURCE_SET source) in
               THINGSET_CAN_REPORT id = true /\ THINGSET_CAN_CONTROL id = false)
            [THINGSET_CAN_PRIO_REPORT_HIGH; THINGSET_CAN_PRIO_REPORT_LOW;
             THINGSET_CAN_PRIO_NETWORK_MGMT; THINGSET_CAN_PRIO_CHANNEL].
Proof.
  destruct prio_constants_as_set as (-> & -> & -> & -> & -> & -> & ->).
  split; repeat first [apply Forall_nil | apply Forall_cons]; cbv zeta.
  all: match goal with
       | |- context [THINGSET_CAN_PRIO_SET ?k] =>
           change (Z.lor (Z.lor (Z.lor (THINGSET_CAN_PRIO_SET k) THINGSET_CAN_TYPE_REPORT)
                                (THINGSET_CAN_DATA_ID_SET data_id))
                         (THINGSET_CAN_SOURCE_SET source))
             with (report_id k data_id source);
           destruct (report_id_class k data_id source ltac:(lia)) as (-> & ->)
       end; split; reflexivity.
Qed.

(** ** Network management frames *)

(** X10: decoding a network-management identifier built from a priority
    below 8 and a random byte (or bus ID), target and source below 0x100
    returns these fields; the identifier has 29 bits and carries the
    network type tag. *)
Theorem network_id_decode (prio rand target source : Z) :
  0 <= prio < 8 -> 0 <= rand < 0x100 -> 0 <= target < 0x100 -> 0 <= source < 0x100 ->
  is_can_id (network_id prio rand target source)
  /\ type_is_network (network_id prio rand target source) = true
  /\ THINGSET_CAN_PRIO_GET (network_id prio rand target source) = prio
  /\ THINGSET_CAN_RAND_GET (network_id prio rand target source) = rand
  /\ THINGSET_CAN_BUS_ID_GET (network_id prio rand target source) = rand
  /\ THINGSET_CAN_TARGET_GET (network_id prio rand target source) = target
  /\ THINGSET_CAN_SOURCE_GET (network_id prio rand target source) = source.
Proof.
  intros Hp Hr Ht Hs.
  destruct (layouts_can_id prio rand target source 0 Hp) as (_ & _ & Hid).
  destruct (layout_type_bits prio rand target source 0) as (_ & _ & Htag).
  destruct (network_id_fields prio rand target source) as (Hprio & Hrand & Htarget & Hsource).
  split; [exact Hid|].
  split; [unfold type_is_network; rewrite Htag; apply Z.eqb_refl|].
  rewrite Hprio, Hrand, Htarget, Hsource.
  unfold THINGSET_CAN_RAND_GET in Hrand. rewrite Hrand.
  repeat split; apply Z.mod_small; lia.
Qed.

Lemma network_id_decode_witness :
  is_can_id (network_id 4 0x5C 0xFF 0xFE)
  /\ THINGSET_CAN_RAND_GET (network_id 4 0x5C 0xFF 0xFE) = 0x5C
  /\ THINGSET_CAN_SOURCE_GET (network_id 4 0x5C 0xFF 0xFE) = THINGSET_CAN_ADDR_ANONYMOUS.
Proof.
  destruct (network_id_decode 4 0x5C 0xFF 0xFE
              ltac:(lia) ltac:(lia) ltac:(lia) ltac:(lia))
    as (Hid & _ & _ & Hrand & _ & _ & Hsource).
  split; [exact Hid|]. split; [exact Hrand | exact Hsource].
Defined.

(** ** Order of identifiers *)

(** X11: identifiers are ordered first by priority, then by type: of two
    29-bit identifiers the one with the smaller priority field is the
    smaller; at equal priority the one with the smaller type bits is the
    smaller; and a smaller identifier never has a larger priority. *)
Theorem id_order_by_prio_then_type (a b : Z) :
  is_can_id a -> is_can_id b ->
  (THINGSET_CAN_PRIO_GET a < THINGSET_CAN_PRIO_GET b -> a < b)
  /\ (THINGSET_CAN_PRIO_GET a = THINGSET_CAN_PRIO_GET b ->
      Z.land a THINGSET_CAN_TYPE_MASK < Z.land b THINGSET_CAN_TYPE_MASK -> a < b)
  /\ (a <= b -> THINGSET_CAN_PRIO_GET a <= THINGSET_CAN_PRIO_GET b).
Proof.
  intros Ha Hb.
  rewrite !PRIO_GET_can_id, !TYPE_MASK_value, !Z.shiftl_mul_pow2, !Z.shiftr_div_pow2
    by (assumption || lia).
  unfold is_can_id in Ha, Hb.
  assert (Hsplit : forall x, x / 2 ^ 24 = 2 ^ 2 * (x / 2 ^ 26) + (x / 2 ^ 24) mod 2 ^ 2).
  { intros x. replace (x / 2 ^ 26) with (x / 2 ^ 24 / 2 ^ 2)
      by (rewrite Z.div_div by lia; reflexivity).
    apply Z.div_mod. lia. }
  pose proof (Hsplit a) as Hsa. pose proof (Hsplit b) as Hsb.
  pose proof (Z.mod_pos_bound (a / 2 ^ 24) (2 ^ 2) ltac:(lia)) as Hta.
  pose proof (Z.mod_pos_bound (b / 2 ^ 24) (2 ^ 2) ltac:(lia)) as Htb.
  pose proof (Z.mul_succ_div_gt a (2 ^ 24) ltac:(lia)) as Hua.
  pose proof (Z.mul_div_le a (2 ^ 24) ltac:(lia)) as Hda.
  pose proof (Z.mul_succ_div_gt b (2 ^ 24) ltac:(lia)) as Hub.
  pose proof (Z.mul_div_le b (2 ^ 24) ltac:(lia)) as Hdb.
  repeat split; intros; lia.
Qed.

Lemma id_order_by_prio_then_type_witness :
  channel_id 6 0xDA 0x05 0x01 < report_id 6 0x1234 0x01
  /\ report_id 5 0xFFFF 0xFD < channel_id 6 0x00 0x00 0x00.
Proof.
  assert (Hchan : is_can_id (channel_id 6 0xDA 0x05 0x01))
    by (vm_compute; split; [discriminate | reflexivity]).
  assert (Hrep : is_can_id (report_id 6 0x1234 0x01))
    by (vm_compute; split; [discriminate | reflexivity]).
  assert (Hrep5 : is_can_id (report_id 5 0xFFFF 0xFD))
    by (vm_compute; split; [discriminate | reflexivity]).
  assert (Hchan0 : is_can_id (channel_id 6 0x00 0x00 0x00))
    by (vm_compute; split; [discriminate | reflexivity]).
  split.
  - apply (proj1 (proj2 (id_order_by_prio_then_type _ _ Hchan Hrep))); reflexivity.
  - apply (proj1 (id_order_by_prio_then_type _ _ Hrep5 Hchan0)); reflexivity.
Defined.

(** ** Which field values give which identifier *)

(** The six bits from bit 26 up hold the low six bits of the priority. *)
Lemma layout_prio_bits (p b t s d : Z) :
  Z.shiftr (channel_id p b t s) 26 mod 2 ^ 6 = p mod 2 ^ 6
  /\ Z.shiftr (report_id p d s) 26 mod 2 ^ 6 = p mod 2 ^ 6
  /\ Z.shiftr (network_id p b t s) 26 mod 2 ^ 6 = p mod 2 ^ 6.
Proof.
  rewrite channel_id_value, report_id_value, network_id_value.
  repeat split; slices.
Qed.

(** X12: two field tuples give the same channel identifier exactly when
    they agree in the low six bits of the priority and the low eight bits
    of bus ID, target and source; likewise for report identifiers, with
    the low sixteen bits of the data ID.  So tuples of values within their
    widths give different identifiers unless they are the same tuple. *)
Theorem layouts_injective (p b t s d p' b' t' s' d' : Z) :
  (channel_id p b t s = channel_id p' b' t' s'
   <-> p mod 2 ^ 6 = p' mod 2 ^ 6 /\ b mod 2 ^ 8 = b' mod 2 ^ 8
       /\ t mod 2 ^ 8 = t' mod 2 ^ 8 /\ s mod 2 ^ 8 = s' mod 2 ^ 8)
  /\ (report_id p d s = report_id p' d' s'
      <-> p mod 2 ^ 6 = p' mod 2 ^ 6 /\ d mod 2 ^ 16 = d' mod 2 ^ 16
          /\ s mod 2 ^ 8 = s' mod 2 ^ 8).
Proof.
  split; split.
  - intros Heq.
    destruct (layout_prio_bits p b t s d) as (Hp & _).
    destruct (layout_prio_bits p' b' t' s' d) as (Hp' & _).
    destruct (channel_id_fields p b t s) as (_ & Hb & Ht & Hs).
    destruct (channel_id_fields p' b' t' s') as (_ & Hb' & Ht' & Hs').
    rewrite Heq in Hp, Hb, Ht, Hs. repeat split; congruence.
  - intros (Hp & Hb & Ht & Hs). rewrite !channel_id_value. congruence.
  - intros Heq.
    destruct (layout_prio_bits p b t s d) as (_ & Hp & _).
    destruct (layout_prio_bits p' b' t' s' d') as (_ & Hp' & _).
    destruct (report_id_fields p d s) as (_ & Hd & Hs).
    destruct (report_id_fields p' d' s') as (_ & Hd' & Hs').
    rewrite Heq in Hp, Hd, Hs. repeat split; congruence.
  - intros (Hp & Hd & Hs). rewrite !report_id_value. congruence.
Qed.

(** X13: an identifier built by a layout has 29 bits exactly when the low
    six bits of the priority put in are below 8; a priority from 8 to 63
    always leaves the 29-bit range. *)
Theorem layout_is_can_id_iff (p b t s d : Z) :
  (is_can_id (channel_id p b t s) <-> p mod 2 ^ 6 < 8)
  /\ (is_can_id (report_id p d s) <-> p mod 2 ^ 6 < 8)
  /\ (is_can_id (network_id p b t s) <-> p mod 2 ^ 6 < 8).
Proof.
  destruct (layout_prio_bits p b t s d) as (Hchan & Hrep & Hnet).
  pose proof (Z.mod_pos_bound p (2 ^ 6) ltac:(lia)) as Hp.
  assert (Hhigh : forall id, is_can_id id -> Z.shiftr id 26 mod 2 ^ 6 < 8).
  { unfold is_can_id. intros id Hid. rewrite Z.shiftr_div_pow2 by lia.
    assert (0 <= id / 2 ^ 26 < 8)
      by (split; [apply Z.div_pos | apply Z.div_lt_upper_bound]; lia).
    rewrite Z.mod_small; lia. }
  assert (Hlow : p mod 2 ^ 6 < 8 ->
                 is_can_id (channel_id p b t s) /\ is_can_id (report_id p d s)
                 /\ is_can_id (network_id p b t s)).
  { intros Hsmall.
    rewrite channel_id_value, report_id_value, network_id_value.
    rewrite <- (mod_pow2_idem p 6) by lia.
    rewrite <- channel_id_value, <- report_id_value, <- network_id_value.
    apply layouts_can_id. lia. }
  split; [|split]; (split; [intros Hid | intros Hsmall; apply Hlow, Hsmall]).
  - rewrite <- Hchan. apply Hhigh, Hid.
  - rewrite <- Hrep. apply Hhigh, Hid.
  - rewrite <- Hnet. apply Hhigh, Hid.
Qed.
